(** * msp430_spi.c: SPI transfers on the MSP430 serial peripherals

    A shallow embedding of [src/msp430/msp430_spi.c].  The C file holds seven
    conditionally compiled blocks (USI, and USCI_A / USCI_B for three chip
    families); each block defines [spi_init], [spi_transfer],
    [spi_transfer16] and [spi_transfer9] over memory-mapped registers.

    The registers are a register file [reg -> Z]; every access is logged, so
    that the order of the hardware events can be stated.  Registers whose
    value is produced by the hardware (port inputs, interrupt flags, receive
    buffers, the USI shift register and bit counter) are read from a
    hardware oracle that sees the whole history of accesses.  Polling loops
    take a bound on the number of polls; a run that exhausts the bound ends
    in [Spinning], with the machine state it reached. *)

From Stdlib Require Import ZArith List Bool Lia FunctionalExtensionality.
Import ListNotations.
Local Open Scope Z_scope.

(** ** Registers *)

(** Every special function register the source names. *)
Inductive reg : Type :=
| P1IN | P1OUT | P1DIR | P1REN | P1SEL | P1SEL2
| P2OUT | P2DIR | P2REN | P2SEL
| P3IN | P3OUT | P3DIR | P3REN | P3SEL | P3SEL2
| IFG2 | UCA0IFG | UCB0IFG
| UCA0CTL0 | UCA0CTL1 | UCA0MCTL | UCA0BR0 | UCA0BR1 | UCA0TXBUF | UCA0RXBUF
| UCB0CTL0 | UCB0CTL1 | UCB0BR0 | UCB0BR1 | UCB0TXBUF | UCB0RXBUF
| USICTL0 | USICTL1 | USICKCTL | USICNT | USISR | USISRL.

Definition reg_tag (r : reg) : positive :=
  match r with
  | P1IN => 1 | P1OUT => 2 | P1DIR => 3 | P1REN => 4 | P1SEL => 5 | P1SEL2 => 6
  | P2OUT => 7 | P2DIR => 8 | P2REN => 9 | P2SEL => 10
  | P3IN => 11 | P3OUT => 12 | P3DIR => 13 | P3REN => 14 | P3SEL => 15
  | P3SEL2 => 16
  | IFG2 => 17 | UCA0IFG => 18 | UCB0IFG => 19
  | UCA0CTL0 => 20 | UCA0CTL1 => 21 | UCA0MCTL => 22 | UCA0BR0 => 23
  | UCA0BR1 => 24 | UCA0TXBUF => 25 | UCA0RXBUF => 26
  | UCB0CTL0 => 27 | UCB0CTL1 => 28 | UCB0BR0 => 29 | UCB0BR1 => 30
  | UCB0TXBUF => 31 | UCB0RXBUF => 32
  | USICTL0 => 33 | USICTL1 => 34 | USICKCTL => 35 | USICNT => 36
  | USISR => 37 | USISRL => 38
  end%positive.

Definition reg_eqb (a b : reg) : bool := Pos.eqb (reg_tag a) (reg_tag b).

(** [USISR] is the 16-bit USI shift register; every other register is a byte. *)
Definition modulus (r : reg) : Z :=
  match r with
  | USISR => 65536
  | _ => 256
  end.

(** Registers whose read value is produced by the hardware: the port input
    registers, the interrupt flag registers, the USCI receive buffers, and
    the USI bit counter and shift register (of which [USISRL] is the low
    byte).  The other registers hold what the program last wrote; the
    status bits that the hardware sets in the control registers ([USIIFG]
    in [USICTL1], for one) are not modelled, the code never tests them. *)
Definition is_input (r : reg) : bool :=
  match r with
  | P1IN | P3IN | IFG2 | UCA0IFG | UCB0IFG | UCA0RXBUF | UCB0RXBUF
  | USICNT | USISR | USISRL => true
  | _ => false
  end.

Definition regfile : Type := reg -> Z.

Definition upd (r : reg) (v : Z) (rf : regfile) : regfile :=
  fun r' => if reg_eqb r' r then v else rf r'.

(** ** Events, hardware, machine *)

Inductive event : Type :=
| Rd (r : reg) (v : Z)      (* a read of [r] that yielded [v] *)
| Wr (r : reg) (v : Z)      (* a write of [v] to [r] *)
| Lpm0.                     (* the CPU entered low-power mode 0 and woke up *)

(** Byte order of the host's memory: which of the two storage bytes of a
    [uint16_t] comes first. *)
Inductive endianness : Type := LittleEndian | BigEndian.

(** The platform the code runs on: what the hardware answers when an input
    register is read (given the accesses so far and the register file), and
    the byte order of memory. *)
Record platform : Type := Platform {
  hw_input : list event -> regfile -> reg -> Z;
  byte_order : endianness
}.

Record machine : Type := Machine {
  regs : regfile;
  log : list event
}.

(** A run either returns a value, or is still spinning in a polling loop when
    the bound on polls is reached. *)
Inductive outcome (A : Type) : Type :=
| Returned (a : A) (m : machine)
| Spinning (m : machine).
Arguments Returned {A} a m.
Arguments Spinning {A} m.

Definition final {A} (o : outcome A) : machine :=
  match o with
  | Returned _ m => m
  | Spinning m => m
  end.

Definition value {A} (o : outcome A) : option A :=
  match o with
  | Returned a _ => Some a
  | Spinning _ => None
  end.

Definition M (A : Type) : Type := platform -> machine -> outcome A.

Definition ret {A} (a : A) : M A := fun _ m => Returned a m.

Definition bind {A B} (c : M A) (f : A -> M B) : M B :=
  fun p m =>
    match c p m with
    | Returned a m' => f a p m'
    | Spinning m' => Spinning m'
    end.

Declare Scope spi_scope.
Delimit Scope spi_scope with spi.
Notation "x <- c1 ;; c2" := (bind c1 (fun x => c2))
  (at level 61, c1 at next level, right associativity) : spi_scope.
Notation "c1 ;; c2" := (bind c1 (fun _ => c2))
  (at level 61, right associativity) : spi_scope.
Local Open Scope spi_scope.

(** Reading a register yields a value of the register's width. *)
Definition rd (r : reg) : M Z :=
  fun p m =>
    let v := (if is_input r then hw_input p (log m) (regs m) r
              else regs m r) mod modulus r in
    Returned v {| regs := regs m; log := log m ++ [Rd r v] |}.

(** Writing a register stores the value truncated to the register's width. *)
Definition wr (r : reg) (v : Z) : M unit :=
  fun _ m =>
    let v' := v mod modulus r in
    Returned tt {| regs := upd r v' (regs m); log := log m ++ [Wr r v'] |}.

(** [r |= v] and [r &= v]: a read followed by a write. *)
Definition set_bits (r : reg) (v : Z) : M unit :=
  x <- rd r ;; wr r (Z.lor x v).

Definition and_bits (r : reg) (v : Z) : M unit :=
  x <- rd r ;; wr r (Z.land x v).

(** [LPM0;] sleeps until an interrupt wakes the CPU; no register of the model
    changes.  The wake-up belongs to the hardware: a sleep that never ends
    is a poll that never comes, and the bound on polls stands for both. *)
Definition lpm0 : M unit :=
  fun _ m => Returned tt {| regs := regs m; log := log m ++ [Lpm0] |}.

Definition when (b : bool) (c : M unit) : M unit := if b then c else ret tt.

(** [while (cond) body], at most [fuel] evaluations of [cond]. *)
Fixpoint while (fuel : nat) (cond : M bool) (body : M unit) : M unit :=
  match fuel with
  | O => fun _ m => Spinning m
  | S n => b <- cond ;; if b then body ;; while n cond body else ret tt
  end.

(** [do body while (cond)], at most [fuel] executions of [body]. *)
Fixpoint do_while (fuel : nat) (body : M unit) (cond : M bool) : M unit :=
  match fuel with
  | O => fun _ m => Spinning m
  | S n => body ;; b <- cond ;; if b then do_while n body cond else ret tt
  end.

(** C truth value of an integer. *)
Definition nonzero (v : Z) : bool := negb (v =? 0).

(** ** Constants of <msp430.h>

    The toolchain header is not part of the repository; the values are
    those of the device headers of the MSP430 toolchains. *)

Definition BIT0 : Z := 0x01.
Definition BIT1 : Z := 0x02.
Definition BIT2 : Z := 0x04.
Definition BIT3 : Z := 0x08.
Definition BIT4 : Z := 0x10.
Definition BIT5 : Z := 0x20.
Definition BIT6 : Z := 0x40.
Definition BIT7 : Z := 0x80.

(** USCI control and flag bits. *)
Definition UCSWRST : Z := 0x01.
Definition UCCKPH : Z := 0x80.
Definition UCMSB : Z := 0x20.
Definition UCMST : Z := 0x08.
Definition UCMODE_0 : Z := 0x00.
Definition UCSYNC : Z := 0x01.
Definition UCSSEL_2 : Z := 0x80.
Definition UCA0RXIFG : Z := 0x01.
Definition UCB0RXIFG : Z := 0x04.
Definition UCRXIFG : Z := 0x01.

(** USI control bits. *)
Definition USISWRST : Z := 0x01.
Definition USICKPH : Z := 0x80.
Definition USISSEL_2 : Z := 0x08.
Definition USIDIV_0 : Z := 0x00.
Definition USIPE7 : Z := 0x80.
Definition USIPE6 : Z := 0x40.
Definition USIPE5 : Z := 0x20.
Definition USIMST : Z := 0x08.
Definition USIOE : Z := 0x02.
Definition USIIE : Z := 0x10.
Definition USI16B : Z := 0x40.

(** ** A [uint16_t] seen through a [uint8_t *] *)

(** The two storage bytes of a 16-bit value, at increasing addresses. *)
Definition bytes_of_u16 (e : endianness) (w : Z) : Z * Z :=
  match e with
  | LittleEndian => (w mod 256, (w / 256) mod 256)
  | BigEndian => ((w / 256) mod 256, w mod 256)
  end.

Definition u16_of_bytes (e : endianness) (b : Z * Z) : Z :=
  match e with
  | LittleEndian => fst b + 256 * snd b
  | BigEndian => snd b + 256 * fst b
  end.

(** [p[i]] and [p[i] = v] for a byte pointer into a 16-bit object.  The
    source declares [uint16_t retw;] without a value and assigns both of its
    bytes before it reads it: the model starts it from two zero bytes. *)
Definition byte_at (b : Z * Z) (i : nat) : Z :=
  match i with
  | O => fst b
  | _ => snd b
  end.

Definition store_byte (b : Z * Z) (i : nat) (v : Z) : Z * Z :=
  match i with
  | O => (v mod 256, snd b)
  | _ => (fst b, v mod 256)
  end.

(** The host's byte order, read from the platform. *)
Definition host_order : M endianness := fun p m => Returned (byte_order p) m.

(** C's [|], [&] and [~]. *)
Infix ".|" := Z.lor (at level 50, left associativity).
Infix ".&" := Z.land (at level 40, left associativity).
Notation ".~ x" := (Z.lnot x) (at level 35, right associativity).

(** ** The source, block by block *)

(** [#ifdef __MSP430_HAS_USI__] (lines 29-77). *)
Module USI.

Definition spi_init : M unit :=
  set_bits USICTL0 USISWRST ;;
  wr USICTL1 USICKPH ;;
  wr USICKCTL (USISSEL_2 .| USIDIV_0) ;;
  wr USICTL0 (USIPE7 .| USIPE6 .| USIPE5 .| USIMST .| USIOE) ;;
  wr USISR 0x0000.

Definition spi_transfer (fuel : nat) (inb : Z) : M Z :=
  set_bits USICTL1 USIIE ;;
  wr USISRL inb ;;
  wr USICNT 8 ;;
  do_while fuel lpm0 (c <- rd USICNT ;; ret (nonzero (c .& 0x1F))) ;;
  and_bits USICTL1 (.~ USIIE) ;;
  rd USISRL.

Definition spi_transfer16 (fuel : nat) (inw : Z) : M Z :=
  set_bits USICTL1 USIIE ;;
  wr USISR inw ;;
  wr USICNT (16 .| USI16B) ;;
  do_while fuel lpm0 (c <- rd USICNT ;; ret (nonzero (c .& 0x1F))) ;;
  and_bits USICTL1 (.~ USIIE) ;;
  rd USISR.

Definition spi_transfer9 (fuel : nat) (inw : Z) : M Z :=
  set_bits USICTL1 USIIE ;;
  wr USISR inw ;;
  wr USICNT (9 .| USI16B) ;;
  do_while fuel lpm0 (c <- rd USICNT ;; ret (nonzero (c .& 0x1F))) ;;
  and_bits USICTL1 (.~ USIIE) ;;
  rd USISR.

End USI.

(** [__MSP430_HAS_USCI__ && SPI_DRIVER_USCI_A && !__MSP430_HAS_TB3__]
    (lines 85-156): USCI_A on F2xxx and G2xx3 devices, pins P1.1, P1.2, P1.4. *)
Module USCI_A_G2xx3.

Definition spi_init : M unit :=
  set_bits P1SEL (BIT1 .| BIT2 .| BIT4) ;;
  set_bits P1SEL2 (BIT1 .| BIT2 .| BIT4) ;;
  set_bits UCA0CTL1 UCSWRST ;;
  wr UCA0MCTL 0x00 ;;
  wr UCA0CTL0 (UCCKPH .| UCMSB .| UCMST .| UCMODE_0 .| UCSYNC) ;;
  wr UCA0BR0 0x01 ;;
  wr UCA0BR1 0x00 ;;
  wr UCA0CTL1 UCSSEL_2.

Definition spi_transfer (fuel : nat) (inb : Z) : M Z :=
  wr UCA0TXBUF inb ;;
  while fuel (f <- rd IFG2 ;; ret (negb (nonzero (f .& UCA0RXIFG)))) (ret tt) ;;
  rd UCA0RXBUF.

Definition spi_transfer16 (fuel : nat) (inw : Z) : M Z :=
  e <- host_order ;;
  let retw8 := (0, 0) in
  let inw8 := bytes_of_u16 e inw in
  wr UCA0TXBUF (byte_at inw8 1) ;;
  while fuel (f <- rd IFG2 ;; ret (negb (nonzero (f .& UCA0RXIFG)))) (ret tt) ;;
  x <- rd UCA0RXBUF ;;
  let retw8 := store_byte retw8 1 x in
  wr UCA0TXBUF (byte_at inw8 0) ;;
  while fuel (f <- rd IFG2 ;; ret (negb (nonzero (f .& UCA0RXIFG)))) (ret tt) ;;
  y <- rd UCA0RXBUF ;;
  let retw8 := store_byte retw8 0 y in
  ret (u16_of_bytes e retw8).

Definition spi_transfer9 (fuel : nat) (inw : Z) : M Z :=
  let retw := 0 in
  p1ren_save <- rd P1REN ;;
  p1out_save <- rd P1OUT ;;
  p1dir_save <- rd P1DIR ;;
  and_bits P1REN (.~ (BIT1 .| BIT2 .| BIT4)) ;;
  and_bits P1OUT (.~ (BIT1 .| BIT2 .| BIT4)) ;;
  (d <- rd P1DIR ;; wr P1DIR (d .& .~ (BIT1 .| BIT2 .| BIT4) .| BIT2 .| BIT4)) ;;
  and_bits P1SEL (.~ (BIT1 .| BIT2 .| BIT4)) ;;
  and_bits P1SEL2 (.~ (BIT1 .| BIT2 .| BIT4)) ;;
  when (nonzero (inw .& 0x0100)) (set_bits P1OUT BIT2) ;;
  set_bits P1OUT BIT4 ;;
  i <- rd P1IN ;;
  let retw := if nonzero (i .& BIT1) then retw .| 0x0100 else retw in
  and_bits P1OUT (.~ BIT4) ;;
  set_bits P1SEL (BIT1 .| BIT2 .| BIT4) ;;
  set_bits P1SEL2 (BIT1 .| BIT2 .| BIT4) ;;
  wr P1DIR p1dir_save ;;
  wr P1OUT p1out_save ;;
  wr P1REN p1ren_save ;;
  r <- spi_transfer fuel (inw .& 0x00FF) ;;
  ret (retw .| r).

End USCI_A_G2xx3.

(** [__MSP430_HAS_USCI__ && SPI_DRIVER_USCI_B && !__MSP430_HAS_TB3__]
    (lines 158-228): USCI_B on F2xxx and G2xx3 devices, pins P1.5, P1.6, P1.7. *)
Module USCI_B_G2xx3.

Definition spi_init : M unit :=
  set_bits P1SEL (BIT5 .| BIT6 .| BIT7) ;;
  set_bits P1SEL2 (BIT5 .| BIT6 .| BIT7) ;;
  set_bits UCB0CTL1 UCSWRST ;;
  wr UCB0CTL0 (UCCKPH .| UCMSB .| UCMST .| UCMODE_0 .| UCSYNC) ;;
  wr UCB0BR0 0x01 ;;
  wr UCB0BR1 0x00 ;;
  wr UCB0CTL1 UCSSEL_2.

Definition spi_transfer (fuel : nat) (inb : Z) : M Z :=
  wr UCB0TXBUF inb ;;
  while fuel (f <- rd IFG2 ;; ret (negb (nonzero (f .& UCB0RXIFG)))) (ret tt) ;;
  rd UCB0RXBUF.

Definition spi_transfer16 (fuel : nat) (inw : Z) : M Z :=
  e <- host_order ;;
  let retw8 := (0, 0) in
  let inw8 := bytes_of_u16 e inw in
  wr UCB0TXBUF (byte_at inw8 1) ;;
  while fuel (f <- rd IFG2 ;; ret (negb (nonzero (f .& UCB0RXIFG)))) (ret tt) ;;
  x <- rd UCB0RXBUF ;;
  let retw8 := store_byte retw8 1 x in
  wr UCB0TXBUF (byte_at inw8 0) ;;
  while fuel (f <- rd IFG2 ;; ret (negb (nonzero (f .& UCB0RXIFG)))) (ret tt) ;;
  y <- rd UCB0RXBUF ;;
  let retw8 := store_byte retw8 0 y in
  ret (u16_of_bytes e retw8).

Definition spi_transfer9 (fuel : nat) (inw : Z) : M Z :=
  let retw := 0 in
  p1ren_save <- rd P1REN ;;
  p1out_save <- rd P1OUT ;;
  p1dir_save <- rd P1DIR ;;
  and_bits P1REN (.~ (BIT5 .| BIT6 .| BIT7)) ;;
  and_bits P1OUT (.~ (BIT5 .| BIT6 .| BIT7)) ;;
  (d <- rd P1DIR ;; wr P1DIR (d .& .~ (BIT5 .| BIT6 .| BIT7) .| BIT5 .| BIT7)) ;;
  and_bits P1SEL (.~ (BIT5 .| BIT6 .| BIT7)) ;;
  and_bits P1SEL2 (.~ (BIT5 .| BIT6 .| BIT7)) ;;
  when (nonzero (inw .& 0x0100)) (set_bits P1OUT BIT7) ;;
  set_bits P1OUT BIT5 ;;
  i <- rd P1IN ;;
  let retw := if nonzero (i .& BIT4) then retw .| 0x0100 else retw in
  and_bits P1OUT (.~ BIT5) ;;
  set_bits P1SEL (BIT5 .| BIT6 .| BIT7) ;;
  set_bits P1SEL2 (BIT5 .| BIT6 .| BIT7) ;;
  wr P1DIR p1dir_save ;;
  wr P1OUT p1out_save ;;
  wr P1REN p1ren_save ;;
  r <- spi_transfer fuel (inw .& 0x00FF) ;;
  ret (retw .| r).

End USCI_B_G2xx3.

(** [__MSP430_HAS_USCI__ && SPI_DRIVER_USCI_A && __MSP430_HAS_TB3__]
    (lines 231-301): USCI_A on G2xx4/G2xx5 devices, pins P3.0, P3.4, P3.5. *)
Module USCI_A_G2xx4.

Definition spi_init : M unit :=
  set_bits P3SEL (BIT0 .| BIT4 .| BIT5) ;;
  and_bits P3SEL2 (.~ (BIT0 .| BIT4 .| BIT5)) ;;
  set_bits UCA0CTL1 UCSWRST ;;
  wr UCA0MCTL 0x00 ;;
  wr UCA0CTL0 (UCCKPH .| UCMSB .| UCMST .| UCMODE_0 .| UCSYNC) ;;
  wr UCA0BR0 0x01 ;;
  wr UCA0BR1 0x00 ;;
  wr UCA0CTL1 UCSSEL_2.

Definition spi_transfer (fuel : nat) (inb : Z) : M Z :=
  wr UCA0TXBUF inb ;;
  while fuel (f <- rd IFG2 ;; ret (negb (nonzero (f .& UCA0RXIFG)))) (ret tt) ;;
  rd UCA0RXBUF.

Definition spi_transfer16 (fuel : nat) (inw : Z) : M Z :=
  e <- host_order ;;
  let retw8 := (0, 0) in
  let inw8 := bytes_of_u16 e inw in
  wr UCA0TXBUF (byte_at inw8 1) ;;
  while fuel (f <- rd IFG2 ;; ret (negb (nonzero (f .& UCA0RXIFG)))) (ret tt) ;;
  x <- rd UCA0RXBUF ;;
  let retw8 := store_byte retw8 1 x in
  wr UCA0TXBUF (byte_at inw8 0) ;;
  while fuel (f <- rd IFG2 ;; ret (negb (nonzero (f .& UCA0RXIFG)))) (ret tt) ;;
  y <- rd UCA0RXBUF ;;
  let retw8 := store_byte retw8 0 y in
  ret (u16_of_bytes e retw8).

Definition spi_transfer9 (fuel : nat) (inw : Z) : M Z :=
  let retw := 0 in
  p3ren_save <- rd P3REN ;;
  p3out_save <- rd P3OUT ;;
  p3dir_save <- rd P3DIR ;;
  and_bits P3REN (.~ (BIT0 .| BIT4 .| BIT5)) ;;
  and_bits P3OUT (.~ (BIT0 .| BIT4 .| BIT5)) ;;
  (d <- rd P3DIR ;; wr P3DIR (d .& .~ (BIT0 .| BIT4 .| BIT5) .| BIT0 .| BIT4)) ;;
  and_bits P3SEL (.~ (BIT0 .| BIT4 .| BIT5)) ;;
  and_bits P3SEL2 (.~ (BIT0 .| BIT4 .| BIT5)) ;;
  when (nonzero (inw .& 0x0100)) (set_bits P3OUT BIT4) ;;
  set_bits P3OUT BIT0 ;;
  i <- rd P3IN ;;
  let retw := if nonzero (i .& BIT5) then retw .| 0x0100 else retw in
  and_bits P3OUT (.~ BIT0) ;;
  set_bits P3SEL (BIT0 .| BIT4 .| BIT5) ;;
  wr P3DIR p3dir_save ;;
  wr P3OUT p3out_save ;;
  wr P3REN p3ren_save ;;
  r <- spi_transfer fuel (inw .& 0x00FF) ;;
  ret (retw .| r).

End USCI_A_G2xx4.

(** [__MSP430_HAS_USCI__ && SPI_DRIVER_USCI_B && __MSP430_HAS_TB3__]
    (lines 303-372): USCI_B on G2xx4/G2xx5 devices, pins P3.1, P3.2, P3.3. *)
Module USCI_B_G2xx4.

Definition spi_init : M unit :=
  set_bits P3SEL (BIT1 .| BIT2 .| BIT3) ;;
  and_bits P3SEL2 (.~ (BIT1 .| BIT2 .| BIT3)) ;;
  set_bits UCB0CTL1 UCSWRST ;;
  wr UCB0CTL0 (UCCKPH .| UCMSB .| UCMST .| UCMODE_0 .| UCSYNC) ;;
  wr UCB0BR0 0x01 ;;
  wr UCB0BR1 0x00 ;;
  wr UCB0CTL1 UCSSEL_2.

Definition spi_transfer (fuel : nat) (inb : Z) : M Z :=
  wr UCB0TXBUF inb ;;
  while fuel (f <- rd IFG2 ;; ret (negb (nonzero (f .& UCB0RXIFG)))) (ret tt) ;;
  rd UCB0RXBUF.

Definition spi_transfer16 (fuel : nat) (inw : Z) : M Z :=
  e <- host_order ;;
  let retw8 := (0, 0) in
  let inw8 := bytes_of_u16 e inw in
  wr UCB0TXBUF (byte_at inw8 1) ;;
  while fuel (f <- rd IFG2 ;; ret (negb (nonzero (f .& UCB0RXIFG)))) (ret tt) ;;
  x <- rd UCB0RXBUF ;;
  let retw8 := store_byte retw8 1 x in
  wr UCB0TXBUF (byte_at inw8 0) ;;
  while fuel (f <- rd IFG2 ;; ret (negb (nonzero (f .& UCB0RXIFG)))) (ret tt) ;;
  y <- rd UCB0RXBUF ;;
  let retw8 := store_byte retw8 0 y in
  ret (u16_of_bytes e retw8).

Definition spi_transfer9 (fuel : nat) (inw : Z) : M Z :=
  let retw := 0 in
  p3ren_save <- rd P3REN ;;
  p3out_save <- rd P3OUT ;;
  p3dir_save <- rd P3DIR ;;
  and_bits P3REN (.~ (BIT1 .| BIT2 .| BIT3)) ;;
  and_bits P3OUT (.~ (BIT1 .| BIT2 .| BIT3)) ;;
  (d <- rd P3DIR ;; wr P3DIR (d .& .~ (BIT1 .| BIT2 .| BIT3) .| BIT1 .| BIT3)) ;;
  and_bits P3SEL (.~ (BIT1 .| BIT2 .| BIT3)) ;;
  and_bits P3SEL2 (.~ (BIT1 .| BIT2 .| BIT3)) ;;
  when (nonzero (inw .& 0x0100)) (set_bits P3OUT BIT1) ;;
  set_bits P3OUT BIT3 ;;
  i <- rd P3IN ;;
  let retw := if nonzero (i .& BIT2) then retw .| 0x0100 else retw in
  and_bits P3OUT (.~ BIT3) ;;
  set_bits P3SEL (BIT1 .| BIT2 .| BIT3) ;;
  wr P3DIR p3dir_save ;;
  wr P3OUT p3out_save ;;
  wr P3REN p3ren_save ;;
  r <- spi_transfer fuel (inw .& 0x00FF) ;;
  ret (retw .| r).

End USCI_B_G2xx4.

(** [__MSP430_HAS_USCI_A0__ && SPI_DRIVER_USCI_A] (lines 375-486): USCI_A on
    F5xxx/6xxx devices.  [spi_init] routes the pins of the F5172 or of the
    F5529 according to which of [__MSP430F5172], [__MSP430F5529] is defined;
    the two [spi_transfer9] definitions are guarded by [__MS430F5172] and
    [__MS430F5529]. *)
Module USCI_A_F5xxx.

Definition spi_init (MSP430F5172 MSP430F5529 : bool) : M unit :=
  when MSP430F5172 (set_bits P1SEL (BIT0 .| BIT1 .| BIT2)) ;;
  when MSP430F5529 (set_bits P3SEL (BIT3 .| BIT4) ;; set_bits P2SEL BIT7) ;;
  set_bits UCA0CTL1 UCSWRST ;;
  wr UCA0MCTL 0x00 ;;
  wr UCA0CTL0 (UCCKPH .| UCMSB .| UCMST .| UCMODE_0 .| UCSYNC) ;;
  wr UCA0BR0 0x01 ;;
  wr UCA0BR1 0x00 ;;
  wr UCA0CTL1 UCSSEL_2.

Definition spi_transfer (fuel : nat) (inb : Z) : M Z :=
  wr UCA0TXBUF inb ;;
  while fuel (f <- rd UCA0IFG ;; ret (negb (nonzero (f .& UCRXIFG)))) (ret tt) ;;
  rd UCA0RXBUF.

Definition spi_transfer16 (fuel : nat) (inw : Z) : M Z :=
  e <- host_order ;;
  let retw8 := (0, 0) in
  let inw8 := bytes_of_u16 e inw in
  wr UCA0TXBUF (byte_at inw8 1) ;;
  while fuel (f <- rd UCA0IFG ;; ret (negb (nonzero (f .& UCRXIFG)))) (ret tt) ;;
  x <- rd UCA0RXBUF ;;
  let retw8 := store_byte retw8 1 x in
  wr UCA0TXBUF (byte_at inw8 0) ;;
  while fuel (f <- rd UCA0IFG ;; ret (negb (nonzero (f .& UCRXIFG)))) (ret tt) ;;
  y <- rd UCA0RXBUF ;;
  let retw8 := store_byte retw8 0 y in
  ret (u16_of_bytes e retw8).

(** [#ifdef __MS430F5172] (lines 420-450): pins P1.0, P1.1, P1.2. *)
Module MS430F5172.

Definition spi_transfer9 (fuel : nat) (inw : Z) : M Z :=
  let retw := 0 in
  p1ren_save <- rd P1REN ;;
  p1out_save <- rd P1OUT ;;
  p1dir_save <- rd P1DIR ;;
  and_bits P1REN (.~ (BIT0 .| BIT1 .| BIT2)) ;;
  and_bits P1OUT (.~ (BIT0 .| BIT1 .| BIT2)) ;;
  (d <- rd P1DIR ;; wr P1DIR (d .& .~ (BIT0 .| BIT1 .| BIT2) .| BIT0 .| BIT1)) ;;
  and_bits P1SEL (.~ (BIT0 .| BIT1 .| BIT2)) ;;
  when (nonzero (inw .& 0x0100)) (set_bits P1OUT BIT1) ;;
  set_bits P1OUT BIT0 ;;
  i <- rd P1IN ;;
  let retw := if nonzero (i .& BIT2) then retw .| 0x0100 else retw in
  and_bits P1OUT (.~ BIT0) ;;
  set_bits P1SEL (BIT0 .| BIT1 .| BIT2) ;;
  wr P1DIR p1dir_save ;;
  wr P1OUT p1out_save ;;
  wr P1REN p1ren_save ;;
  r <- spi_transfer fuel (inw .& 0x00FF) ;;
  ret (retw .| r).

End MS430F5172.

(** [#ifdef __MS430F5529] (lines 452-484): pins P3.3, P3.4 and P2.7. *)
Module MS430F5529.

Definition spi_transfer9 (fuel : nat) (inw : Z) : M Z :=
  let retw := 0 in
  p3ren_save <- rd P3REN ;;
  p3out_save <- rd P3OUT ;;
  p3dir_save <- rd P3DIR ;;
  p2ren_save <- rd P2REN ;;
  p2out_save <- rd P2OUT ;;
  p2dir_save <- rd P2DIR ;;
  and_bits P3REN (.~ (BIT3 .| BIT4)) ;;
  and_bits P2REN (.~ BIT7) ;;
  and_bits P3OUT (.~ (BIT3 .| BIT4)) ;;
  and_bits P2OUT (.~ BIT7) ;;
  (d <- rd P3DIR ;; wr P3DIR (d .| .~ (BIT3 .| BIT4) .| BIT3)) ;;
  set_bits P2DIR BIT7 ;;
  and_bits P3SEL (.~ (BIT3 .| BIT4)) ;;
  and_bits P2SEL (.~ BIT7) ;;
  when (nonzero (inw .& 0x0100)) (set_bits P3OUT BIT3) ;;
  set_bits P2OUT BIT7 ;;
  i <- rd P3IN ;;
  let retw := if nonzero (i .& BIT4) then retw .| 0x0100 else retw in
  and_bits P2OUT (.~ BIT7) ;;
  set_bits P3SEL (BIT3 .| BIT4) ;;
  set_bits P2SEL BIT7 ;;
  wr P3DIR p3dir_save ;;
  wr P2DIR p2dir_save ;;
  wr P3OUT p3out_save ;;
  wr P2OUT p2out_save ;;
  wr P3REN p3ren_save ;;
  wr P2REN p2ren_save ;;
  r <- spi_transfer fuel (inw .& 0x00FF) ;;
  ret (retw .| r).

End MS430F5529.

End USCI_A_F5xxx.

(** [__MSP430_HAS_USCI_B0__ && SPI_DRIVER_USCI_B] (lines 488-595): USCI_B on
    F5xxx/6xxx devices; [spi_init] and [spi_transfer9] both select the pins
    by [__MSP430F5172] and [__MSP430F5529]. *)
Module USCI_B_F5xxx.

Definition spi_init (MSP430F5172 MSP430F5529 : bool) : M unit :=
  when MSP430F5172 (set_bits P1SEL (BIT3 .| BIT4 .| BIT5)) ;;
  when MSP430F5529 (set_bits P3SEL (BIT0 .| BIT1 .| BIT2)) ;;
  set_bits UCB0CTL1 UCSWRST ;;
  wr UCB0CTL0 (UCCKPH .| UCMSB .| UCMST .| UCMODE_0 .| UCSYNC) ;;
  wr UCB0BR0 0x01 ;;
  wr UCB0BR1 0x00 ;;
  wr UCB0CTL1 UCSSEL_2.

Definition spi_transfer (fuel : nat) (inb : Z) : M Z :=
  wr UCB0TXBUF inb ;;
  while fuel (f <- rd UCB0IFG ;; ret (negb (nonzero (f .& UCRXIFG)))) (ret tt) ;;
  rd UCB0RXBUF.

Definition spi_transfer16 (fuel : nat) (inw : Z) : M Z :=
  e <- host_order ;;
  let retw8 := (0, 0) in
  let inw8 := bytes_of_u16 e inw in
  wr UCB0TXBUF (byte_at inw8 1) ;;
  while fuel (f <- rd UCB0IFG ;; ret (negb (nonzero (f .& UCRXIFG)))) (ret tt) ;;
  x <- rd UCB0RXBUF ;;
  let retw8 := store_byte retw8 1 x in
  wr UCB0TXBUF (byte_at inw8 0) ;;
  while fuel (f <- rd UCB0IFG ;; ret (negb (nonzero (f .& UCRXIFG)))) (ret tt) ;;
  y <- rd UCB0RXBUF ;;
  let retw8 := store_byte retw8 0 y in
  ret (u16_of_bytes e retw8).

(** [#ifdef __MSP430F5172] (lines 531-561): pins P1.3, P1.4, P1.5. *)
Module MSP430F5172.

Definition spi_transfer9 (fuel : nat) (inw : Z) : M Z :=
  let retw := 0 in
  p1ren_save <- rd P1REN ;;
  p1out_save <- rd P1OUT ;;
  p1dir_save <- rd P1DIR ;;
  and_bits P1REN (.~ (BIT3 .| BIT4 .| BIT5)) ;;
  and_bits P1OUT (.~ (BIT3 .| BIT4 .| BIT5)) ;;
  (d <- rd P1DIR ;; wr P1DIR (d .& .~ (BIT3 .| BIT4 .| BIT5) .| BIT3 .| BIT4)) ;;
  and_bits P1SEL (.~ (BIT3 .| BIT4 .| BIT5)) ;;
  when (nonzero (inw .& 0x0100)) (set_bits P1OUT BIT4) ;;
  set_bits P1OUT BIT3 ;;
  i <- rd P1IN ;;
  let retw := if nonzero (i .& BIT5) then retw .| 0x0100 else retw in
  and_bits P1OUT (.~ BIT3) ;;
  set_bits P1SEL (BIT3 .| BIT4 .| BIT5) ;;
  wr P1DIR p1dir_save ;;
  wr P1OUT p1out_save ;;
  wr P1REN p1ren_save ;;
  r <- spi_transfer fuel (inw .& 0x00FF) ;;
  ret (retw .| r).

End MSP430F5172.

(** [#ifdef __MSP430F5529] (lines 563-593): pins P3.0, P3.1, P3.2. *)
Module MSP430F5529.

Definition spi_transfer9 (fuel : nat) (inw : Z) : M Z :=
  let retw := 0 in
  p3ren_save <- rd P3REN ;;
  p3out_save <- rd P3OUT ;;
  p3dir_save <- rd P3DIR ;;
  and_bits P3REN (.~ (BIT0 .| BIT1 .| BIT2)) ;;
  and_bits P3OUT (.~ (BIT0 .| BIT1 .| BIT2)) ;;
  (d <- rd P3DIR ;; wr P3DIR (d .& .~ (BIT0 .| BIT1 .| BIT2) .| BIT0 .| BIT2)) ;;
  and_bits P3SEL (.~ (BIT0 .| BIT1 .| BIT2)) ;;
  when (nonzero (inw .& 0x0100)) (set_bits P3OUT BIT0) ;;
  set_bits P3OUT BIT2 ;;
  i <- rd P3IN ;;
  let retw := if nonzero (i .& BIT1) then retw .| 0x0100 else retw in
  and_bits P3OUT (.~ BIT2) ;;
  set_bits P3SEL (BIT0 .| BIT1 .| BIT2) ;;
  wr P3DIR p3dir_save ;;
  wr P3OUT p3out_save ;;
  wr P3REN p3ren_save ;;
  r <- spi_transfer fuel (inw .& 0x00FF) ;;
  ret (retw .| r).

End MSP430F5529.

End USCI_B_F5xxx.

(** ** Build configurations and the preprocessor *)

(** The macros the [#if] lines of the source test.  [MS430F5172] and
    [MS430F5529] are the two names spelt without the [P] that guard the
    USCI_A [spi_transfer9] definitions for the F5xxx devices. *)
Record build : Type := Build {
  MSP430_HAS_USI : bool;          (* __MSP430_HAS_USI__ *)
  MSP430_HAS_USCI : bool;         (* __MSP430_HAS_USCI__ *)
  MSP430_HAS_TB3 : bool;          (* __MSP430_HAS_TB3__ *)
  MSP430_HAS_USCI_A0 : bool;      (* __MSP430_HAS_USCI_A0__ *)
  MSP430_HAS_USCI_B0 : bool;      (* __MSP430_HAS_USCI_B0__ *)
  SPI_DRIVER_USCI_A : bool;
  SPI_DRIVER_USCI_B : bool;
  MSP430F5172 : bool;             (* __MSP430F5172 *)
  MSP430F5529 : bool;             (* __MSP430F5529 *)
  MS430F5172 : bool;              (* __MS430F5172 *)
  MS430F5529 : bool               (* __MS430F5529 *)
}.

(** A function definition that survives preprocessing. *)
Inductive func : Type :=
| Fspi_init (f : M unit)
| Fspi_transfer (f : nat -> Z -> M Z)
| Fspi_transfer16 (f : nat -> Z -> M Z)
| Fspi_transfer9 (f : nat -> Z -> M Z).

Inductive symbol : Type :=
  spi_init | spi_transfer | spi_transfer16 | spi_transfer9.

Definition symbol_of (f : func) : symbol :=
  match f with
  | Fspi_init _ => spi_init
  | Fspi_transfer _ => spi_transfer
  | Fspi_transfer16 _ => spi_transfer16
  | Fspi_transfer9 _ => spi_transfer9
  end.

Definition symbol_eqb (a b : symbol) : bool :=
  match a, b with
  | spi_init, spi_init | spi_transfer, spi_transfer
  | spi_transfer16, spi_transfer16 | spi_transfer9, spi_transfer9 => true
  | _, _ => false
  end.

Definition ifdef {A} (c : bool) (l : list A) : list A := if c then l else [].

(** The definitions the compiler sees for a build, in source order. *)
Definition translation_unit (b : build) : list func :=
  ifdef (MSP430_HAS_USI b)
    [Fspi_init USI.spi_init; Fspi_transfer USI.spi_transfer;
     Fspi_transfer16 USI.spi_transfer16; Fspi_transfer9 USI.spi_transfer9]
  ++ ifdef (MSP430_HAS_USCI b && SPI_DRIVER_USCI_A b && negb (MSP430_HAS_TB3 b))
    [Fspi_init USCI_A_G2xx3.spi_init; Fspi_transfer USCI_A_G2xx3.spi_transfer;
     Fspi_transfer16 USCI_A_G2xx3.spi_transfer16;
     Fspi_transfer9 USCI_A_G2xx3.spi_transfer9]
  ++ ifdef (MSP430_HAS_USCI b && SPI_DRIVER_USCI_B b && negb (MSP430_HAS_TB3 b))
    [Fspi_init USCI_B_G2xx3.spi_init; Fspi_transfer USCI_B_G2xx3.spi_transfer;
     Fspi_transfer16 USCI_B_G2xx3.spi_transfer16;
     Fspi_transfer9 USCI_B_G2xx3.spi_transfer9]
  ++ ifdef (MSP430_HAS_USCI b && SPI_DRIVER_USCI_A b && MSP430_HAS_TB3 b)
    [Fspi_init USCI_A_G2xx4.spi_init; Fspi_transfer USCI_A_G2xx4.spi_transfer;
     Fspi_transfer16 USCI_A_G2xx4.spi_transfer16;
     Fspi_transfer9 USCI_A_G2xx4.spi_transfer9]
  ++ ifdef (MSP430_HAS_USCI b && SPI_DRIVER_USCI_B b && MSP430_HAS_TB3 b)
    [Fspi_init USCI_B_G2xx4.spi_init; Fspi_transfer USCI_B_G2xx4.spi_transfer;
     Fspi_transfer16 USCI_B_G2xx4.spi_transfer16;
     Fspi_transfer9 USCI_B_G2xx4.spi_transfer9]
  ++ ifdef (MSP430_HAS_USCI_A0 b && SPI_DRIVER_USCI_A b)
    ([Fspi_init (USCI_A_F5xxx.spi_init (MSP430F5172 b) (MSP430F5529 b));
      Fspi_transfer USCI_A_F5xxx.spi_transfer;
      Fspi_transfer16 USCI_A_F5xxx.spi_transfer16]
     ++ ifdef (MS430F5172 b)
          [Fspi_transfer9 USCI_A_F5xxx.MS430F5172.spi_transfer9]
     ++ ifdef (MS430F5529 b)
          [Fspi_transfer9 USCI_A_F5xxx.MS430F5529.spi_transfer9])
  ++ ifdef (MSP430_HAS_USCI_B0 b && SPI_DRIVER_USCI_B b)
    ([Fspi_init (USCI_B_F5xxx.spi_init (MSP430F5172 b) (MSP430F5529 b));
      Fspi_transfer USCI_B_F5xxx.spi_transfer;
      Fspi_transfer16 USCI_B_F5xxx.spi_transfer16]
     ++ ifdef (MSP430F5172 b)
          [Fspi_transfer9 USCI_B_F5xxx.MSP430F5172.spi_transfer9]
     ++ ifdef (MSP430F5529 b)
          [Fspi_transfer9 USCI_B_F5xxx.MSP430F5529.spi_transfer9]).

(** How many definitions of a symbol the translation unit holds. *)
Definition definitions (s : symbol) (b : build) : nat :=
  length (filter (fun f => symbol_eqb (symbol_of f) s) (translation_unit b)).

(** The devices the header comment of the source lists, each with the macros
    its device header defines and with one SPI driver selected. *)
Definition no_macro : build :=
  Build false false false false false false false false false false false.

Definition G2231_USI : build :=
  Build true false false false false false false false false false false.
Definition G2553_USCI_A : build :=
  Build false true false false false true false false false false false.
Definition G2553_USCI_B : build :=
  Build false true false false false false true false false false false.
Definition G2x55_USCI_A : build :=
  Build false true true false false true false false false false false.
Definition G2x55_USCI_B : build :=
  Build false true true false false false true false false false false.
Definition F5172_USCI_A : build :=
  Build false false false true true true false true false false false.
Definition F5529_USCI_A : build :=
  Build false false false true true true false false true false false.
Definition F5172_USCI_B : build :=
  Build false false false true true false true true false false false.
Definition F5529_USCI_B : build :=
  Build false false false true true false true false true false false.

Definition supported : list build :=
  [G2231_USI; G2553_USCI_A; G2553_USCI_B; G2x55_USCI_A; G2x55_USCI_B;
   F5172_USCI_A; F5529_USCI_A; F5172_USCI_B; F5529_USCI_B].

(** ** The backends, for statements that range over them *)

(** The seven blocks of the source. *)
Inductive backend : Type :=
| B_USI
| B_USCI_A_G2xx3 | B_USCI_B_G2xx3
| B_USCI_A_G2xx4 | B_USCI_B_G2xx4
| B_USCI_A_F5xxx | B_USCI_B_F5xxx.

Definition spi_init_of (b : backend) (f5172 f5529 : bool) : M unit :=
  match b with
  | B_USI => USI.spi_init
  | B_USCI_A_G2xx3 => USCI_A_G2xx3.spi_init
  | B_USCI_B_G2xx3 => USCI_B_G2xx3.spi_init
  | B_USCI_A_G2xx4 => USCI_A_G2xx4.spi_init
  | B_USCI_B_G2xx4 => USCI_B_G2xx4.spi_init
  | B_USCI_A_F5xxx => USCI_A_F5xxx.spi_init f5172 f5529
  | B_USCI_B_F5xxx => USCI_B_F5xxx.spi_init f5172 f5529
  end.

Definition spi_transfer_of (b : backend) : nat -> Z -> M Z :=
  match b with
  | B_USI => USI.spi_transfer
  | B_USCI_A_G2xx3 => USCI_A_G2xx3.spi_transfer
  | B_USCI_B_G2xx3 => USCI_B_G2xx3.spi_transfer
  | B_USCI_A_G2xx4 => USCI_A_G2xx4.spi_transfer
  | B_USCI_B_G2xx4 => USCI_B_G2xx4.spi_transfer
  | B_USCI_A_F5xxx => USCI_A_F5xxx.spi_transfer
  | B_USCI_B_F5xxx => USCI_B_F5xxx.spi_transfer
  end.

Definition spi_transfer16_of (b : backend) : nat -> Z -> M Z :=
  match b with
  | B_USI => USI.spi_transfer16
  | B_USCI_A_G2xx3 => USCI_A_G2xx3.spi_transfer16
  | B_USCI_B_G2xx3 => USCI_B_G2xx3.spi_transfer16
  | B_USCI_A_G2xx4 => USCI_A_G2xx4.spi_transfer16
  | B_USCI_B_G2xx4 => USCI_B_G2xx4.spi_transfer16
  | B_USCI_A_F5xxx => USCI_A_F5xxx.spi_transfer16
  | B_USCI_B_F5xxx => USCI_B_F5xxx.spi_transfer16
  end.

Definition is_usci (b : backend) : bool :=
  match b with
  | B_USI => false
  | _ => true
  end.

(** The eight [spi_transfer9] definitions that bit-bang the ninth bit. *)
Inductive bitbang : Type :=
| BB_USCI_A_G2xx3 | BB_USCI_B_G2xx3
| BB_USCI_A_G2xx4 | BB_USCI_B_G2xx4
| BB_USCI_A_F5172 | BB_USCI_A_F5529
| BB_USCI_B_F5172 | BB_USCI_B_F5529.

Definition spi_transfer9_of (v : bitbang) : nat -> Z -> M Z :=
  match v with
  | BB_USCI_A_G2xx3 => USCI_A_G2xx3.spi_transfer9
  | BB_USCI_B_G2xx3 => USCI_B_G2xx3.spi_transfer9
  | BB_USCI_A_G2xx4 => USCI_A_G2xx4.spi_transfer9
  | BB_USCI_B_G2xx4 => USCI_B_G2xx4.spi_transfer9
  | BB_USCI_A_F5172 => USCI_A_F5xxx.MS430F5172.spi_transfer9
  | BB_USCI_A_F5529 => USCI_A_F5xxx.MS430F5529.spi_transfer9
  | BB_USCI_B_F5172 => USCI_B_F5xxx.MSP430F5172.spi_transfer9
  | BB_USCI_B_F5529 => USCI_B_F5xxx.MSP430F5529.spi_transfer9
  end.

Definition backend_of (v : bitbang) : backend :=
  match v with
  | BB_USCI_A_G2xx3 => B_USCI_A_G2xx3
  | BB_USCI_B_G2xx3 => B_USCI_B_G2xx3
  | BB_USCI_A_G2xx4 => B_USCI_A_G2xx4
  | BB_USCI_B_G2xx4 => B_USCI_B_G2xx4
  | BB_USCI_A_F5172 | BB_USCI_A_F5529 => B_USCI_A_F5xxx
  | BB_USCI_B_F5172 | BB_USCI_B_F5529 => B_USCI_B_F5xxx
  end.

(** The registers of a USCI backend's byte transfer: transmit buffer, flag
    register, receive flag, receive buffer. *)
Definition txbuf (b : backend) : reg :=
  match b with
  | B_USI => USISRL
  | B_USCI_A_G2xx3 | B_USCI_A_G2xx4 | B_USCI_A_F5xxx => UCA0TXBUF
  | B_USCI_B_G2xx3 | B_USCI_B_G2xx4 | B_USCI_B_F5xxx => UCB0TXBUF
  end.

Definition rxbuf (b : backend) : reg :=
  match b with
  | B_USI => USISRL
  | B_USCI_A_G2xx3 | B_USCI_A_G2xx4 | B_USCI_A_F5xxx => UCA0RXBUF
  | B_USCI_B_G2xx3 | B_USCI_B_G2xx4 | B_USCI_B_F5xxx => UCB0RXBUF
  end.

Definition flag_reg (b : backend) : reg :=
  match b with
  | B_USI => USICNT
  | B_USCI_A_G2xx3 | B_USCI_A_G2xx4 | B_USCI_B_G2xx3 | B_USCI_B_G2xx4 => IFG2
  | B_USCI_A_F5xxx => UCA0IFG
  | B_USCI_B_F5xxx => UCB0IFG
  end.

Definition rx_flag (b : backend) : Z :=
  match b with
  | B_USI => 0x1F
  | B_USCI_A_G2xx3 | B_USCI_A_G2xx4 => UCA0RXIFG
  | B_USCI_B_G2xx3 | B_USCI_B_G2xx4 => UCB0RXIFG
  | B_USCI_A_F5xxx | B_USCI_B_F5xxx => UCRXIFG
  end.

(** ** Pins *)

(** A port pin: the registers that hold its output level, direction and
    pull-resistor enable, its function-select register, the second select
    register where the family has one (with the level that, together with a
    set first select bit, routes the pin to the USCI), and its bit. *)
Record pin : Type := Pin {
  pin_out : reg;
  pin_dir : reg;
  pin_ren : reg;
  pin_sel : reg;
  pin_sel2 : option (reg * bool);
  pin_index : Z
}.

Definition P1_G2xx3 (n : Z) : pin := Pin P1OUT P1DIR P1REN P1SEL (Some (P1SEL2, true)) n.
Definition P3_G2xx4 (n : Z) : pin := Pin P3OUT P3DIR P3REN P3SEL (Some (P3SEL2, false)) n.
Definition P1_F5xxx (n : Z) : pin := Pin P1OUT P1DIR P1REN P1SEL None n.
Definition P2_F5xxx (n : Z) : pin := Pin P2OUT P2DIR P2REN P2SEL None n.
Definition P3_F5xxx (n : Z) : pin := Pin P3OUT P3DIR P3REN P3SEL None n.

(** The three pins a [spi_transfer9] definition repurposes, by role.  They
    are the pins its block's [spi_init] routes to the USCI; the clock is the
    pin the code pulses, data-out the pin it raises for bit 8, and data-in
    the remaining pin, which the code leaves an input.  [sample_reg] is the
    port input register the code reads between the two clock edges. *)
Record pinout : Type := Pinout {
  clock : pin;
  data_out : pin;
  data_in : pin;
  sample_reg : reg
}.

Definition pins (v : bitbang) : pinout :=
  match v with
  | BB_USCI_A_G2xx3 => Pinout (P1_G2xx3 4) (P1_G2xx3 2) (P1_G2xx3 1) P1IN
  | BB_USCI_B_G2xx3 => Pinout (P1_G2xx3 5) (P1_G2xx3 7) (P1_G2xx3 6) P1IN
  | BB_USCI_A_G2xx4 => Pinout (P3_G2xx4 0) (P3_G2xx4 4) (P3_G2xx4 5) P3IN
  | BB_USCI_B_G2xx4 => Pinout (P3_G2xx4 3) (P3_G2xx4 1) (P3_G2xx4 2) P3IN
  | BB_USCI_A_F5172 => Pinout (P1_F5xxx 0) (P1_F5xxx 1) (P1_F5xxx 2) P1IN
  | BB_USCI_A_F5529 => Pinout (P2_F5xxx 7) (P3_F5xxx 3) (P3_F5xxx 4) P3IN
  | BB_USCI_B_F5172 => Pinout (P1_F5xxx 3) (P1_F5xxx 4) (P1_F5xxx 5) P1IN
  | BB_USCI_B_F5529 => Pinout (P3_F5xxx 2) (P3_F5xxx 0) (P3_F5xxx 1) P3IN
  end.

Definition spi_pin_list (v : bitbang) : list pin :=
  [clock (pins v); data_out (pins v); data_in (pins v)].

(** The registers that configure a pin. *)
Definition pin_regs (x : pin) : list reg :=
  [pin_out x; pin_dir x; pin_ren x; pin_sel x]
  ++ match pin_sel2 x with Some (r, _) => [r] | None => [] end.

Definition mem_reg (r : reg) (l : list reg) : bool := existsb (reg_eqb r) l.

(** The bits of register [r] that belong to the three SPI pins. *)
Definition spi_pins (v : bitbang) (r : reg) : Z :=
  fold_right
    (fun x acc => if mem_reg r (pin_regs x) then Z.shiftl 1 (pin_index x) .| acc else acc)
    0 (spi_pin_list v).

(** The port configuration registers: output, direction, pull-resistor
    enable and function select. *)
Definition is_port_config (r : reg) : bool :=
  match r with
  | P1OUT | P1DIR | P1REN | P1SEL | P1SEL2
  | P2OUT | P2DIR | P2REN | P2SEL
  | P3OUT | P3DIR | P3REN | P3SEL | P3SEL2 => true
  | _ => false
  end.

(** The direction, output and pull-resistor registers a definition saves on
    entry. *)
Definition saved_regs (v : bitbang) : list reg :=
  match v with
  | BB_USCI_A_G2xx3 | BB_USCI_B_G2xx3 | BB_USCI_A_F5172 | BB_USCI_B_F5172 =>
      [P1DIR; P1OUT; P1REN]
  | BB_USCI_A_G2xx4 | BB_USCI_B_G2xx4 | BB_USCI_B_F5529 =>
      [P3DIR; P3OUT; P3REN]
  | BB_USCI_A_F5529 => [P3DIR; P2DIR; P3OUT; P2OUT; P3REN; P2REN]
  end.

(** A pin is in peripheral-function role when its select bit is set and the
    second select bit, where there is one, has the level of the USCI
    function. *)
Definition routed (rf : regfile) (x : pin) : Prop :=
  Z.testbit (rf (pin_sel x)) (pin_index x) = true /\
  match pin_sel2 x with
  | Some (r, l) => Z.testbit (rf r) (pin_index x) = l
  | None => True
  end.

Definition peripheral_function (v : bitbang) (rf : regfile) : Prop :=
  Forall (routed rf) (spi_pin_list v).

(** A pin is a general-purpose output when all its select bits are clear and
    its direction bit is set; the port then drives it to its output bit. *)
Definition gpio_output (rf : regfile) (x : pin) : bool :=
  negb (Z.testbit (rf (pin_sel x)) (pin_index x))
  && match pin_sel2 x with
     | Some (r, _) => negb (Z.testbit (rf r) (pin_index x))
     | None => true
     end
  && Z.testbit (rf (pin_dir x)) (pin_index x).

Definition driven (rf : regfile) (x : pin) : option bool :=
  if gpio_output rf x then Some (Z.testbit (rf (pin_out x)) (pin_index x))
  else None.

(** Every register holds a value of its width. *)
Definition byte_registers (rf : regfile) : Prop :=
  forall r, 0 <= rf r < modulus r.

(** ** Logs *)

Definition apply_event (e : event) (rf : regfile) : regfile :=
  match e with
  | Wr r v => upd r v rf
  | _ => rf
  end.

(** The register file after the writes of a list of events. *)
Definition replay (evs : list event) (rf : regfile) : regfile :=
  fold_left (fun rf e => apply_event e rf) evs rf.

(** The writes of a log, in order. *)
Definition writes (evs : list event) : list (reg * Z) :=
  flat_map (fun e => match e with Wr r v => [(r, v)] | _ => [] end) evs.

(** The values written to one register, in order. *)
Definition writes_to (r : reg) (evs : list event) : list Z :=
  flat_map (fun e => match e with
                     | Wr r' v => if reg_eqb r' r then [v] else []
                     | _ => []
                     end) evs.

Definition is_port_write (e : event) : bool :=
  match e with
  | Wr r _ => is_port_config r
  | _ => false
  end.

(** A write leaves the bits of the pins other than the SPI pins as they were
    in [rf0]. *)
Definition keeps_other_pins (v : bitbang) (rf0 : regfile) (e : event) : Prop :=
  match e with
  | Wr r x =>
      is_port_config r = true ->
      x .& .~ (spi_pins v r) = rf0 r .& .~ (spi_pins v r)
  | _ => True
  end.

(** ** What happens on the wires *)

Inductive wire : Type :=
| DataOut (level : bool)     (* the port drives the data-out pin to [level] *)
| Clock (level : bool)       (* the port drives the clock pin to [level] *)
| Sample (v : Z)             (* the port input register is read *)
| HwTransfer (b : Z).        (* [b] is written to the transmit buffer *)

(** The event of a pin taking a new driven level. *)
Definition edge (mk : bool -> wire) (before after : option bool) : list wire :=
  match after with
  | Some l =>
      match before with
      | Some l' => if Bool.eqb l l' then [] else [mk l]
      | None => [mk l]
      end
  | None => []
  end.

Fixpoint wire_trace (v : bitbang) (rf : regfile) (evs : list event) : list wire :=
  match evs with
  | [] => []
  | e :: evs' =>
      let rf' := apply_event e rf in
      match e with
      | Wr r b =>
          if reg_eqb r (txbuf (backend_of v)) then [HwTransfer b]
          else edge DataOut (driven rf (data_out (pins v))) (driven rf' (data_out (pins v)))
               ++ edge Clock (driven rf (clock (pins v))) (driven rf' (clock (pins v)))
      | Rd r x => if reg_eqb r (sample_reg (pins v)) then [Sample x] else []
      | Lpm0 => []
      end ++ wire_trace v rf' evs'
  end.

(** ** Loopback wiring *)

(** Hardware with data-out wired to data-in: the data-in bit of the port
    input register reads the output bit the port holds for data-out (the
    level on the wire while the port drives data-out and data-in is an
    input), the other pins of the port read [others]; the receive buffer
    holds the byte last written to the transmit buffer, and every flag
    register reads all ones (the exchange completes at once). *)
Definition loopback (v : bitbang) (others : Z) : platform :=
  {| hw_input := fun _ rf r =>
       if reg_eqb r (sample_reg (pins v)) then
         if Z.testbit (rf (pin_out (data_out (pins v)))) (pin_index (data_out (pins v)))
         then Z.setbit others (pin_index (data_in (pins v)))
         else Z.clearbit others (pin_index (data_in (pins v)))
       else if reg_eqb r (rxbuf (backend_of v)) then rf (txbuf (backend_of v))
       else 0xFF;
     byte_order := LittleEndian |}.

(** All registers zero, nothing logged. *)
Definition reset_machine : machine := {| regs := fun _ => 0; log := [] |}.

(** ** Polling *)

(** The writes that start a byte exchange. *)
Definition start (b : backend) (inb : Z) : M unit :=
  match b with
  | B_USI => set_bits USICTL1 USIIE ;; wr USISRL inb ;; wr USICNT 8
  | _ => wr (txbuf b) inb
  end.

(** One poll of the receive-complete condition, as the backend's loop makes
    it: true when the exchange is complete. *)
Definition poll (b : backend) : M bool :=
  match b with
  | B_USI => lpm0 ;; c <- rd USICNT ;; ret (negb (nonzero (c .& 0x1F)))
  | _ => f <- rd (flag_reg b) ;; ret (nonzero (f .& rx_flag b))
  end.

(** The result of the poll that follows [k] earlier polls. *)
Fixpoint nth_poll (poll : M bool) (k : nat) : M bool :=
  match k with
  | O => poll
  | S k' => poll ;; nth_poll poll k'
  end.

(** The hardware reports completion at the poll that follows [k] polls
    after the start of the exchange. *)
Definition complete_at (b : backend) (inb : Z) (p : platform) (m : machine)
    (k : nat) : Prop :=
  value ((start b inb ;; nth_poll (poll b) k) p m) = Some true.

(** ** The 16-bit transfer as the specification words it *)

(** Two byte transfers, most-significant byte first, the first received byte
    becoming the high byte of the result. *)
Definition transfer16_spec (b : backend) (fuel : nat) (v : Z) : M Z :=
  hi <- spi_transfer_of b fuel (Z.shiftr v 8) ;;
  lo <- spi_transfer_of b fuel (v .& 0xFF) ;;
  ret (Z.shiftl hi 8 .| lo).

(** Two runs are observably equivalent: same writes, same return value. *)
Definition observably_equal {A} (o1 o2 : outcome A) : Prop :=
  value o1 = value o2 /\ writes (log (final o1)) = writes (log (final o2)).

(** ** Auxiliary definitions for the proofs *)

(** The shape shared by the six USCI [spi_transfer] definitions. *)
Definition usci_transfer (tx ifg : reg) (flag : Z) (rx : reg)
    (fuel : nat) (inb : Z) : M Z :=
  wr tx inb ;;
  while fuel (f <- rd ifg ;; ret (negb (nonzero (f .& flag)))) (ret tt) ;;
  rd rx.

Definition is_read (e : event) : bool :=
  match e with
  | Rd _ _ => true
  | _ => false
  end.

(** The saved registers hold their entry values and the three pins are
    routed to the peripheral. *)
Definition restored (v : bitbang) (rf0 rf : regfile) : Prop :=
  (forall r, In r (saved_regs v) -> rf r = rf0 r) /\ peripheral_function v rf.

(** [f] holds of every number below [n]. *)
Fixpoint forall_below (n : nat) (f : Z -> bool) : bool :=
  match n with
  | O => true
  | S k => f (Z.of_nat k) && forall_below k f
  end.

(** Polling until a poll succeeds, at most [fuel] polls. *)
Fixpoint wait (poll : M bool) (fuel : nat) : M unit :=
  match fuel with
  | O => fun _ m => Spinning m
  | S n => b <- poll ;; if b then ret tt else wait poll n
  end.

(** What a byte transfer does once the exchange is complete. *)
Definition finish (b : backend) : M Z :=
  match b with
  | B_USI => and_bits USICTL1 (.~ USIIE) ;; rd USISRL
  | _ => rd (rxbuf b)
  end.

(** A computation that always returns. *)
Definition total {A} (c : M A) : Prop :=
  forall p m, exists a m', c p m = Returned a m'.

(** The poll that follows [k] polls succeeds. *)
Definition succeeds_after (poll : M bool) (k : nat) p m : Prop :=
  value (nth_poll poll k p m) = Some true.


(** The hardware answers alike after the histories [l1] and [l2]. *)
Definition same_hardware (p : platform) (l1 l2 : list event) : Prop :=
  forall h rf r, hw_input p (l1 ++ h) rf r = hw_input p (l2 ++ h) rf r.

(** Two machines with the same registers whose logs extend [l1] and [l2] by
    the same events. *)
Definition sim (l1 l2 : list event) (m1 m2 : machine) : Prop :=
  regs m1 = regs m2 /\ exists h, log m1 = l1 ++ h /\ log m2 = l2 ++ h.

Definition sim_outcome {A} (l1 l2 : list event) (o1 o2 : outcome A) : Prop :=
  match o1, o2 with
  | Returned a m1, Returned b m2 => a = b /\ sim l1 l2 m1 m2
  | Spinning m1, Spinning m2 => sim l1 l2 m1 m2
  | _, _ => False
  end.

Definition respects {A} (p : platform) (l1 l2 : list event) (c : M A) : Prop :=
  forall m1 m2, sim l1 l2 m1 m2 -> sim_outcome l1 l2 (c p m1) (c p m2).

(** The shape shared by the six USCI [spi_transfer16] definitions. *)
Definition usci_transfer16 (tx ifg : reg) (flag : Z) (rx : reg)
    (fuel : nat) (inw : Z) : M Z :=
  e <- host_order ;;
  let retw8 := (0, 0) in
  let inw8 := bytes_of_u16 e inw in
  wr tx (byte_at inw8 1) ;;
  while fuel (f <- rd ifg ;; ret (negb (nonzero (f .& flag)))) (ret tt) ;;
  x <- rd rx ;;
  let retw8 := store_byte retw8 1 x in
  wr tx (byte_at inw8 0) ;;
  while fuel (f <- rd ifg ;; ret (negb (nonzero (f .& flag)))) (ret tt) ;;
  y <- rd rx ;;
  let retw8 := store_byte retw8 0 y in
  ret (u16_of_bytes e retw8).

(** Hardware on which every input register reads zero. *)
Definition idle_hardware : platform :=
  {| hw_input := fun _ _ _ => 0; byte_order := LittleEndian |}.


(** A read of one of the registers [rs]. *)
Definition reads_of (rs : list reg) (e : event) : bool :=
  match e with
  | Rd r _ => mem_reg r rs
  | _ => false
  end.

(** ** Further definitions: initialisation *)

(** The device macro a bit-banging definition's build defines, which
    selects the pins [spi_init] routes on the F5xxx blocks. *)
Definition device_F5172 (v : bitbang) : bool :=
  match v with
  | BB_USCI_A_F5172 | BB_USCI_B_F5172 => true
  | _ => false
  end.

Definition device_F5529 (v : bitbang) : bool :=
  match v with
  | BB_USCI_A_F5529 | BB_USCI_B_F5529 => true
  | _ => false
  end.

(** The register whose bit 0 holds the peripheral in reset ([USISWRST],
    [UCSWRST]). *)
Definition reset_reg (b : backend) : reg :=
  match b with
  | B_USI => USICTL0
  | B_USCI_A_G2xx3 | B_USCI_A_G2xx4 | B_USCI_A_F5xxx => UCA0CTL1
  | B_USCI_B_G2xx3 | B_USCI_B_G2xx4 | B_USCI_B_F5xxx => UCB0CTL1
  end.

(** The registers that hold the mode and the clock of the peripheral. *)
Definition mode_regs (b : backend) : list reg :=
  match b with
  | B_USI => [USICTL1; USICKCTL]
  | B_USCI_A_G2xx3 | B_USCI_A_G2xx4 | B_USCI_A_F5xxx =>
      [UCA0MCTL; UCA0CTL0; UCA0BR0; UCA0BR1]
  | B_USCI_B_G2xx3 | B_USCI_B_G2xx4 | B_USCI_B_F5xxx =>
      [UCB0CTL0; UCB0BR0; UCB0BR1]
  end.

(** Every write of [evs] to a mode register finds the reset bit set. *)
Fixpoint written_under_reset (b : backend) (rf : regfile) (evs : list event)
    : Prop :=
  match evs with
  | [] => True
  | e :: evs' =>
      match e with
      | Wr r _ =>
          mem_reg r (mode_regs b) = true ->
          Z.testbit (rf (reset_reg b)) 0 = true
      | _ => True
      end
      /\ written_under_reset b (apply_event e rf) evs'
  end.

(** How many times [evs] writes one of the registers [rs]. *)
Definition count_writes (rs : list reg) (evs : list event) : nat :=
  length (filter (fun e => match e with
                           | Wr r _ => mem_reg r rs
                           | _ => false
                           end) evs).

(** ** Further definitions: the pins while the ninth bit is exchanged *)


Definition is_output (rf : regfile) (x : pin) : bool :=
  Z.testbit (rf (pin_dir x)) (pin_index x).


(** ** Further definitions: the three USI transfers *)

Inductive usi_width : Type := USI8 | USI16 | USI9.

Definition usi_transfer_of (w : usi_width) : nat -> Z -> M Z :=
  match w with
  | USI8 => USI.spi_transfer
  | USI16 => USI.spi_transfer16
  | USI9 => USI.spi_transfer9
  end.

(** The register the data is written to and read from, and the value
    written to the bit counter. *)
Definition usi_data_reg (w : usi_width) : reg :=
  match w with
  | USI8 => USISRL
  | _ => USISR
  end.

Definition usi_count (w : usi_width) : Z :=
  match w with
  | USI8 => 8
  | USI16 => 16 .| USI16B
  | USI9 => 9 .| USI16B
  end.

Definition usi_start (w : usi_width) (v : Z) : M unit :=
  set_bits USICTL1 USIIE ;; wr (usi_data_reg w) v ;; wr USICNT (usi_count w).

Definition usi_finish (w : usi_width) : M Z :=
  and_bits USICTL1 (.~ USIIE) ;; rd (usi_data_reg w).

(** The registers of the USI that the transfers write. *)
Definition usi_transfer_regs : list reg := [USICTL1; USISR; USISRL; USICNT].

(** ** Further definitions: hardware that never completes *)

(** The receive flag of the backend reads clear at every poll. *)
Definition never_ready (b : backend) (p : platform) : Prop :=
  forall h rf, (hw_input p h rf (flag_reg b) mod 256) .& rx_flag b = 0.

(** ** Further definitions: builds *)

Definition b2n (b : bool) : nat := if b then 1%nat else 0%nat.

(** How many device families the macros of a build announce. *)
Definition families (b : build) : nat :=
  (b2n (MSP430_HAS_USI b) + b2n (MSP430_HAS_USCI b)
   + b2n (MSP430_HAS_USCI_A0 b || MSP430_HAS_USCI_B0 b))%nat.

(** At most one SPI driver and at most one F5xxx device are selected. *)
Definition one_selection (b : build) : bool :=
  negb (SPI_DRIVER_USCI_A b && SPI_DRIVER_USCI_B b)
  && negb (MSP430F5172 b && MSP430F5529 b)
  && negb (MS430F5172 b && MS430F5529 b).

(** ** Further definitions: the registers a computation writes *)

Definition allowed_write (rs : list reg) (e : event) : bool :=
  match e with
  | Wr r _ => mem_reg r rs
  | _ => true
  end.

(** From every state the computation appends events to the log, the
    register file it leaves is the entry one after the writes among them,
    and every write is to one of [rs]. *)
Definition writes_within {A} (rs : list reg) (c : M A) : Prop :=
  forall p m, exists evs,
    log (final (c p m)) = log m ++ evs
    /\ regs (final (c p m)) = replay evs (regs m)
    /\ forallb (allowed_write rs) evs = true.

(** The registers of the peripheral that a transfer writes. *)
Definition transfer_regs (b : backend) : list reg :=
  match b with
  | B_USI => usi_transfer_regs
  | _ => [txbuf b]
  end.

(** The configuration registers of the ports of the three pins. *)
Definition port_regs (v : bitbang) : list reg :=
  flat_map pin_regs (spi_pin_list v).

(** The function-select registers of the three pins. *)
Definition select_regs (v : bitbang) : list reg :=
  flat_map (fun x => pin_sel x :: match pin_sel2 x with
                                  | Some (r, _) => [r]
                                  | None => []
                                  end) (spi_pin_list v).

(** The registers of the peripheral that [spi_init] writes. *)
Definition init_regs (b : backend) : list reg :=
  reset_reg b :: mode_regs b ++ match b with B_USI => [USISR] | _ => [] end.

(** ** Further definitions: the wire between data-out and data-in *)

(** Data-out wired to data-in, with the drivers taken into account.  The
    data-in bit of the port input register reads the output bit of data-out
    only while the port drives data-out (general-purpose output) and does
    not drive data-in; otherwise (data-out left to the peripheral or an
    input, or data-in driven by the port against it) it reads [undriven], a
    level the code has no hold on.  The other pins read [others]; the
    receive buffer and the flags are those of [loopback]. *)
Definition wired (v : bitbang) (others : Z) (undriven : bool) : platform :=
  {| hw_input := fun _ rf r =>
       if reg_eqb r (sample_reg (pins v)) then
         if match driven rf (data_in (pins v)), driven rf (data_out (pins v)) with
            | None, Some l => l
            | _, _ => undriven
            end
         then Z.setbit others (pin_index (data_in (pins v)))
         else Z.clearbit others (pin_index (data_in (pins v)))
       else if reg_eqb r (rxbuf (backend_of v)) then rf (txbuf (backend_of v))
       else 0xFF;
     byte_order := LittleEndian |}.

(** * Proofs *)


(** ** Basic facts *)

Lemma reg_eqb_eq a b : reg_eqb a b = true <-> a = b.
Proof.
  unfold reg_eqb. rewrite Pos.eqb_eq. split; [|congruence].
  destruct a, b; simpl; intros H; try reflexivity; discriminate H.
Qed.

Lemma reg_eqb_refl a : reg_eqb a a = true.
Proof. apply reg_eqb_eq. reflexivity. Qed.

Lemma upd_same r v rf : upd r v rf r = v.
Proof. unfold upd. rewrite reg_eqb_refl. reflexivity. Qed.

Lemma upd_other r r' v rf : r' <> r -> upd r v rf r' = rf r'.
Proof.
  unfold upd. intros H. destruct (reg_eqb r' r) eqn:E; [|reflexivity].
  apply reg_eqb_eq in E. contradiction.
Qed.

Lemma modulus_pos r : 0 < modulus r.
Proof. destruct r; reflexivity. Qed.

Lemma final_bind_ret {A B} (c : M A) (f : A -> B) p m :
  final ((x <- c ;; ret (f x)) p m) = final (c p m).
Proof. unfold bind, ret. destruct (c p m); reflexivity. Qed.

Lemma value_bind_ret {A B} (c : M A) (f : A -> B) p m :
  value ((x <- c ;; ret (f x)) p m) = option_map f (value (c p m)).
Proof. unfold bind, ret. destruct (c p m); reflexivity. Qed.

(** ** The USCI byte transfer *)

Lemma spi_transfer_usci b :
  is_usci b = true ->
  spi_transfer_of b = usci_transfer (txbuf b) (flag_reg b) (rx_flag b) (rxbuf b).
Proof. destruct b; intros H; try discriminate H; reflexivity. Qed.

Lemma wait_final ifg flag fuel p m :
  exists polls,
    final (while fuel (f <- rd ifg ;; ret (negb (nonzero (f .& flag)))) (ret tt) p m)
    = {| regs := regs m; log := log m ++ polls |}
    /\ forallb is_read polls = true.
Proof.
  revert m. induction fuel as [|n IH]; intros m.
  - exists []. rewrite app_nil_r. destruct m; split; reflexivity.
  - cbn [while]. unfold bind at 1. unfold bind at 1.
    cbn [rd ret].
    set (v := _ mod modulus ifg).
    destruct (negb (nonzero (v .& flag))).
    + unfold bind at 1. cbn [ret].
      destruct (IH {| regs := regs m; log := log m ++ [Rd ifg v] |}) as [polls [E F]].
      exists (Rd ifg v :: polls). rewrite E. cbn [regs log].
      rewrite <- app_assoc. split; [reflexivity|exact F].
    + exists [Rd ifg v]. split; reflexivity.
Qed.

Lemma usci_transfer_final tx ifg flag rx fuel inb p m :
  exists reads,
    final (usci_transfer tx ifg flag rx fuel inb p m)
    = {| regs := upd tx (inb mod modulus tx) (regs m);
         log := log m ++ Wr tx (inb mod modulus tx) :: reads |}
    /\ forallb is_read reads = true.
Proof.
  unfold usci_transfer. unfold bind at 1. cbn [wr].
  set (m1 := {| regs := _; log := _ |}).
  destruct (wait_final ifg flag fuel p m1) as [polls [E F]].
  unfold bind at 1.
  destruct (while _ _ _ p m1) as [[] m2|m2]; cbn [final] in E; subst m2.
  - cbn [rd final regs log]. eexists (polls ++ [_]). split.
    + subst m1. cbn [regs log]. rewrite <- !app_assoc. reflexivity.
    + rewrite forallb_app, F. reflexivity.
  - exists polls. subst m1. cbn [final regs log]. rewrite <- app_assoc.
    split; [reflexivity|exact F].
Qed.

Lemma usci_transfer_value tx ifg flag rx fuel inb p m x :
  modulus rx = 256 ->
  value (usci_transfer tx ifg flag rx fuel inb p m) = Some x -> 0 <= x < 256.
Proof.
  intros Hrx.
  unfold usci_transfer. unfold bind at 1. cbn [wr].
  unfold bind at 1.
  destruct (while _ _ _ p _) as [[] m2|m2]; [|discriminate].
  cbn [rd value]. intros [= <-]. rewrite Hrx. apply Z.mod_pos_bound. reflexivity.
Qed.

(** ** Facts about a byte, decided by trying its 256 values *)

Lemma forall_below_sound n f :
  forall_below n f = true -> forall x, 0 <= x < Z.of_nat n -> f x = true.
Proof.
  induction n as [|k IH]; intros H x Hx; [lia|].
  cbn [forall_below] in H. apply andb_true_iff in H. destruct H as [H1 H2].
  destruct (Z.eq_dec x (Z.of_nat k)) as [->|Hne]; [exact H1|].
  apply IH; [exact H2|lia].
Qed.

Lemma byte_check (f : Z -> bool) :
  forall_below 256 f = true -> forall x, 0 <= x < 256 -> f x = true.
Proof. intros H x Hx. apply (forall_below_sound 256 f H). simpl. lia. Qed.

Lemma low_byte_mod inw : (inw .& 255) mod 256 = inw .& 255.
Proof.
  change 255 with (Z.ones 8). rewrite Z.land_ones by lia.
  change (2 ^ 8) with 256. apply Z.mod_mod. lia.
Qed.

(** ** Running the straight-line code *)

(* one run of register accesses, up to the next branch or loop *)
Ltac step :=
  cbn [bind rd wr regs log is_input modulus when ret set_bits and_bits upd
       reg_eqb reg_tag Pos.eqb app final value].

(* replace hardware answers by variables *)
Ltac forget_inputs :=
  repeat match goal with
  | |- context [hw_input ?p ?l ?rf ?r] =>
      let x := fresh "x" in
      generalize (hw_input p l rf r); intro x
  end.

(* the log as the entry log followed by a list of events *)
Ltac norm_log := rewrite <- ?app_assoc; cbn [app].

Lemma byte_check_Z (f g : Z -> Z) :
  forall_below 256 (fun x => f x =? g x) = true ->
  forall x, 0 <= x < 256 -> f x = g x.
Proof. intros H x Hx. apply Z.eqb_eq. revert x Hx. apply byte_check. exact H. Qed.

Lemma byte_check_bool (f : Z -> bool) (c : bool) :
  forall_below 256 (fun x => Bool.eqb (f x) c) = true ->
  forall x, 0 <= x < 256 -> f x = c.
Proof.
  intros H x Hx. apply eqb_true_iff. revert x Hx.
  apply (byte_check (fun x => Bool.eqb (f x) c)). exact H.
Qed.

(* decide a goal about one byte by trying its 256 values *)
Ltac byte_goal x Hx :=
  revert x Hx;
  lazymatch goal with
  | |- forall x, 0 <= x < 256 -> @?f x = true =>
      apply (byte_check_bool f true); vm_compute; reflexivity
  | |- forall x, 0 <= x < 256 -> @?f x = false =>
      apply (byte_check_bool f false); vm_compute; reflexivity
  | |- forall x, 0 <= x < 256 -> @?f x = @?g x :> Z =>
      apply (byte_check_Z f g); vm_compute; reflexivity
  end.

Ltac unfold_transfer9 :=
  cbn [spi_transfer9_of backend_of txbuf];
  unfold USCI_A_G2xx3.spi_transfer9, USCI_B_G2xx3.spi_transfer9,
         USCI_A_G2xx4.spi_transfer9, USCI_B_G2xx4.spi_transfer9,
         USCI_A_F5xxx.MS430F5172.spi_transfer9,
         USCI_A_F5xxx.MS430F5529.spi_transfer9,
         USCI_B_F5xxx.MSP430F5172.spi_transfer9,
         USCI_B_F5xxx.MSP430F5529.spi_transfer9;
  change USCI_A_G2xx3.spi_transfer with (usci_transfer UCA0TXBUF IFG2 UCA0RXIFG UCA0RXBUF);
  change USCI_B_G2xx3.spi_transfer with (usci_transfer UCB0TXBUF IFG2 UCB0RXIFG UCB0RXBUF);
  change USCI_A_G2xx4.spi_transfer with (usci_transfer UCA0TXBUF IFG2 UCA0RXIFG UCA0RXBUF);
  change USCI_B_G2xx4.spi_transfer with (usci_transfer UCB0TXBUF IFG2 UCB0RXIFG UCB0RXBUF);
  change USCI_A_F5xxx.spi_transfer with (usci_transfer UCA0TXBUF UCA0IFG UCRXIFG UCA0RXBUF);
  change USCI_B_F5xxx.spi_transfer with (usci_transfer UCB0TXBUF UCB0IFG UCRXIFG UCB0RXBUF).

(* run the bit-bang phase of [spi_transfer9], for both values of bit 8 *)
Ltac run_bitbang inw :=
  unfold_transfer9; step;
  destruct (nonzero (inw .& 256)) eqn:?; step; forget_inputs.

(* the state in which the byte transfer that ends [spi_transfer9] leaves the
   machine *)
Ltac transfer_final reads F :=
  rewrite final_bind_ret;
  match goal with
  | |- context [usci_transfer ?tx ?ifg ?flag ?rx ?fuel ?inb ?p ?m] =>
      destruct (usci_transfer_final tx ifg flag rx fuel inb p m) as [reads [?E F]];
      rewrite E; clear E
  end;
  cbn [regs log modulus]; rewrite low_byte_mod; norm_log.

(* the events of [lst] before the write to the transmit buffer *)
Ltac prefix_before lst reads :=
  lazymatch lst with
  | _ :: reads => constr:(@nil event)
  | ?e :: ?t => let r := prefix_before t reads in constr:(e :: r)
  end.

(* replace the bytes read from the register file by variables *)
Ltac abstract_bytes :=
  repeat match goal with
  | |- context [?f ?r mod 256] =>
      is_var f;
      generalize (Z.mod_pos_bound (f r) 256 eq_refl);
      generalize (f r mod 256); intros ? ?
  end.

Ltac by_bytes :=
  abstract_bytes;
  lazymatch goal with
  | Hx : 0 <= ?x < 256 |- _ => byte_goal x Hx
  end.

Ltac pin_simpl :=
  cbn [spi_pin_list pins clock data_out data_in sample_reg
       pin_out pin_dir pin_ren pin_sel pin_sel2 pin_index
       P1_G2xx3 P3_G2xx4 P1_F5xxx P2_F5xxx P3_F5xxx
       upd reg_eqb reg_tag Pos.eqb].

Ltac solve_routed :=
  unfold peripheral_function; pin_simpl;
  repeat (apply Forall_cons;
    [ unfold routed; pin_simpl;
      split; [by_bytes | first [exact I | by_bytes]]
    | ]);
  apply Forall_nil.

(* registers that hold bytes are their own value modulo 256 *)
Ltac bytes_small Hb :=
  repeat match goal with
  | |- context [?f ?r mod 256] =>
      is_var f; rewrite (Z.mod_small (f r) 256) by apply Hb
  end.

Ltac solve_restored Hb :=
  split;
  [ cbn [saved_regs In]; intros r Hr;
    repeat (destruct Hr as [<-|Hr]; [cbn [upd reg_eqb reg_tag Pos.eqb];
            bytes_small Hb; reflexivity|]);
    contradiction
  | solve_routed ].

(** ** C1: the ports are restored before the byte transfer *)

(** C1.  For each of the eight bit-banging [spi_transfer9] definitions and
    every entry state whose registers hold bytes: the log of the call is the
    entry log, then a prefix [pre], then the write of the low byte to the
    transmit buffer, then reads only.  Already after [pre] (before the
    hardware transfer is started) the direction, output and pull-resistor
    registers hold their entry values and the select bits of the three pins
    route them to the peripheral; the same holds of the final state, whether
    the call returned or is still polling. *)
Theorem transfer9_restores_ports (v : bitbang) fuel inw p m :
  byte_registers (regs m) ->
  exists pre reads,
    let m' := final (spi_transfer9_of v fuel inw p m) in
    let tx := txbuf (backend_of v) in
    log m' = log m ++ pre ++ Wr tx (inw .& 0xFF) :: reads
    /\ writes_to tx pre = []
    /\ forallb is_read reads = true
    /\ restored v (regs m) (replay pre (regs m))
    /\ restored v (regs m) (regs m').
Proof.
  intros Hb. destruct m as [rf l]. cbn [regs log] in *. cbv zeta.
  destruct v; run_bitbang inw; transfer_final reads F;
  match goal with
  | |- context [l ++ ?evs] => let pre := prefix_before evs reads in exists pre
  end; exists reads;
  (split; [reflexivity|]);
  (split; [reflexivity|]);
  (split; [exact F|]);
  cbn [replay fold_left apply_event].
  all: split; solve_restored Hb.
Qed.

Lemma reset_machine_bytes : byte_registers (regs reset_machine).
Proof. intros r. destruct r; cbn; lia. Defined.

Lemma transfer9_restores_ports_witness :
  byte_registers (regs reset_machine) /\
  restored BB_USCI_A_G2xx3 (regs reset_machine)
    (regs (final (spi_transfer9_of BB_USCI_A_G2xx3 1 0x1C3
                    (loopback BB_USCI_A_G2xx3 0) reset_machine))).
Proof.
  split; [exact reset_machine_bytes|].
  destruct (transfer9_restores_ports BB_USCI_A_G2xx3 1 0x1C3
              (loopback BB_USCI_A_G2xx3 0) reset_machine reset_machine_bytes)
    as [pre [reads [_ [_ [_ [_ H]]]]]].
  exact H.
Defined.

(** ** C10: the result of [spi_transfer9] has nine bits *)

Lemma lor_nine_bits retw z :
  retw = 0 \/ retw = 0 .| 256 -> 0 <= z < 256 -> 0 <= retw .| z <= 511.
Proof.
  intros [-> | ->] Hz; revert z Hz.
  - intros z Hz. rewrite Z.lor_0_l. lia.
  - assert (H : forall z, 0 <= z < 256 ->
                (0 <=? (0 .| 256) .| z) && ((0 .| 256) .| z <=? 511) = true).
    { apply byte_check. vm_compute. reflexivity. }
    intros z Hz. specialize (H z Hz). apply andb_true_iff in H. lia.
Qed.

(** C10.  Whatever the entry state, the input word and the answers of the
    hardware (data-in pin, flags, receive buffer), a value returned by any
    of the eight bit-banging [spi_transfer9] definitions is at most 0x1FF. *)
Theorem transfer9_nine_bits (v : bitbang) fuel inw p m r :
  value (spi_transfer9_of v fuel inw p m) = Some r -> 0 <= r <= 0x1FF.
Proof.
  destruct m as [rf l].
  destruct v; run_bitbang inw; rewrite value_bind_ret;
  match goal with
  | |- context [usci_transfer ?tx ?ifg ?flag ?rx ?fuel ?inb ?p ?m] =>
      destruct (value (usci_transfer tx ifg flag rx fuel inb p m)) as [z|] eqn:E;
      [apply usci_transfer_value in E; [|reflexivity]|discriminate]
  end;
  cbn [option_map]; intros [= <-];
  (apply lor_nine_bits; [|exact E]);
  match goal with
  | |- context [if ?c then _ else _] => destruct c; [right|left]; reflexivity
  end.
Qed.

Lemma transfer9_nine_bits_witness :
  value (spi_transfer9_of BB_USCI_A_G2xx3 1 0x1C3
           (loopback BB_USCI_A_G2xx3 0) reset_machine) = Some 0x1C3
  /\ 0 <= 0x1C3 <= 0x1FF.
Proof.
  split; [vm_compute; reflexivity|].
  apply (transfer9_nine_bits BB_USCI_A_G2xx3 1 0x1C3
           (loopback BB_USCI_A_G2xx3 0) reset_machine).
  vm_compute. reflexivity.
Defined.

(** ** C9: the pins of the port that are not SPI pins *)

Lemma reads_keep_other_pins v rf reads :
  forallb is_read reads = true -> Forall (keeps_other_pins v rf) reads.
Proof.
  induction reads as [|e reads IH]; intros H; [constructor|].
  cbn [forallb] in H. apply andb_true_iff in H. destruct H as [He Hr].
  constructor; [|apply IH; exact Hr].
  destruct e; try discriminate He. exact I.
Qed.

(* replace the registers of a byte register file by bytes *)
Ltac abstract_regs Hb :=
  repeat match goal with
  | |- context [?f ?r] =>
      is_var f;
      lazymatch type of f with regfile => idtac end;
      let H := fresh "Hr" in
      pose proof (Hb r) as H; cbn [modulus] in H; revert H;
      generalize (f r); intros ? ?
  end.

Ltac solve_keeps Hb :=
  lazymatch goal with
  | |- keeps_other_pins _ _ (Rd _ _) => exact I
  | |- keeps_other_pins ?v _ (Wr ?r _) =>
      cbn [keeps_other_pins is_port_config];
      first
        [ intros H; discriminate H
        | intros _;
          let k := eval vm_compute in (spi_pins v r) in
          change (spi_pins v r) with k;
          bytes_small Hb; abstract_regs Hb;
          lazymatch goal with
          | Hx : 0 <= ?x < 256 |- _ => byte_goal x Hx
          end ]
  end.

(** Every write of the call leaves the bits of the other pins as they were
    on entry, for the seven definitions other than the USCI_A one for the
    F5529. *)
Lemma transfer9_keeps_other_pins (v : bitbang) fuel inw p m :
  v <> BB_USCI_A_F5529 ->
  byte_registers (regs m) ->
  exists evs,
    log (final (spi_transfer9_of v fuel inw p m)) = log m ++ evs
    /\ Forall (keeps_other_pins v (regs m)) evs.
Proof.
  intros Hv Hb. destruct m as [rf l]. cbn [regs log] in *.
  destruct v; try (exfalso; apply Hv; reflexivity);
  run_bitbang inw; transfer_final reads F;
  match goal with
  | |- context [l ++ ?evs] => exists evs
  end;
  (split; [reflexivity|]);
  repeat (apply Forall_cons; [solve_keeps Hb|]);
  apply reads_keep_other_pins; exact F.
Qed.

(** C9 (the code at the failing input).  The USCI_A definition for the F5529
    (lines 453-483) computes the new direction register as
    [(P3DIR | ~(BIT3 | BIT4)) | BIT3]: entered with [P3DIR = 0], its
    sixteenth register access writes 0xEF to [P3DIR], which turns the six
    pins of port 3 that are not SPI pins into outputs. *)
Theorem transfer9_F5529_overwrites_P3DIR :
  regs reset_machine P3DIR = 0
  /\ spi_pins BB_USCI_A_F5529 P3DIR = BIT3 .| BIT4
  /\ nth_error
       (log (final (spi_transfer9_of BB_USCI_A_F5529 1 0
                      (loopback BB_USCI_A_F5529 0) reset_machine))) 15
     = Some (Wr P3DIR 0xEF)
  /\ ~ keeps_other_pins BB_USCI_A_F5529 (regs reset_machine) (Wr P3DIR 0xEF).
Proof.
  split; [reflexivity|].
  split; [reflexivity|].
  split; [vm_compute; reflexivity|].
  intros H. specialize (H eq_refl). vm_compute in H. discriminate H.
Qed.

(** ** C2: loopback *)

Lemma nonzero_land_bit v n :
  0 <= n -> nonzero (v .& Z.shiftl 1 n) = Z.testbit v n.
Proof.
  intros Hn. unfold nonzero. rewrite Z.shiftl_1_l.
  destruct (Z.testbit v n) eqn:E.
  - destruct (Z.eqb_spec (v .& 2 ^ n) 0) as [H0|]; [|reflexivity].
    assert (H : Z.testbit (v .& 2 ^ n) n = true).
    { rewrite Z.land_spec, E, Z.pow2_bits_true by exact Hn. reflexivity. }
    rewrite H0, Z.bits_0 in H. discriminate H.
  - replace (v .& 2 ^ n) with 0; [reflexivity|].
    symmetry. apply Z.bits_inj'. intros i Hi.
    rewrite Z.land_spec, Z.bits_0, Z.pow2_bits_eqb by exact Hn.
    destruct (Z.eqb_spec n i) as [->|]; [rewrite E; reflexivity|].
    apply andb_false_r.
Qed.

Lemma testbit_byte v n : 0 <= n < 8 -> Z.testbit (v mod 256) n = Z.testbit v n.
Proof. intros Hn. change 256 with (2 ^ 8). apply Z.mod_pow2_bits_low. lia. Qed.

(** Reading a pin that was set, cleared, or left alone. *)
Lemma sample_setbit others n k :
  0 <= n -> 0 <= k < 8 ->
  nonzero (Z.setbit others n mod 256 .& Z.shiftl 1 k)
  = if n =? k then true else Z.testbit others k.
Proof.
  intros Hn Hk. rewrite nonzero_land_bit, testbit_byte by lia.
  destruct (Z.eqb_spec n k) as [->|Hne].
  - apply Z.setbit_eq; lia.
  - apply Z.setbit_neq; lia.
Qed.

Lemma sample_clearbit others n k :
  0 <= n -> 0 <= k < 8 ->
  nonzero (Z.clearbit others n mod 256 .& Z.shiftl 1 k)
  = if n =? k then false else Z.testbit others k.
Proof.
  intros Hn Hk. rewrite nonzero_land_bit, testbit_byte by lia.
  destruct (Z.eqb_spec n k) as [->|Hne].
  - apply Z.clearbit_eq; lia.
  - apply Z.clearbit_neq; lia.
Qed.

(** Under loopback a USCI byte transfer returns the byte it sent, as soon
    as one poll is allowed. *)
Lemma usci_transfer_loopback (v : bitbang) fuel others inb m :
  let b := backend_of v in
  value (usci_transfer (txbuf b) (flag_reg b) (rx_flag b) (rxbuf b) (S fuel) inb
           (loopback v others) m)
  = Some (inb mod 256).
Proof.
  destruct m as [rf l]. destruct v; cbv zeta;
  cbv [backend_of txbuf flag_reg rx_flag rxbuf usci_transfer while bind rd wr
       ret is_input modulus hw_input loopback sample_reg pins regs log];
  match goal with
  | |- context [negb (nonzero ?e)] => change (negb (nonzero e)) with false
  end;
  cbv [value upd reg_eqb reg_tag Pos.eqb];
  rewrite Z.mod_mod by lia; reflexivity.
Qed.

Lemma nine_bits_recombine inw :
  0 <= inw <= 511 ->
  (if nonzero (inw .& 256) then 0 .| 256 else 0) .| ((inw .& 255) mod 256) = inw.
Proof.
  intros H.
  assert (E : forall x, 0 <= x < Z.of_nat 512 ->
            ((if nonzero (x .& 256) then 0 .| 256 else 0) .| ((x .& 255) mod 256)
             =? x) = true).
  { apply forall_below_sound. vm_compute. reflexivity. }
  apply Z.eqb_eq, E. simpl. lia.
Qed.

(* run [spi_transfer9] on the loopback platform *)
Ltac run_loopback inw E8 :=
  unfold_transfer9; step;
  destruct (nonzero (inw .& 256)) eqn:E8; step;
  cbn [hw_input loopback pins sample_reg data_out data_in pin_out pin_index
       P1_G2xx3 P3_G2xx4 P1_F5xxx P2_F5xxx P3_F5xxx
       reg_eqb reg_tag Pos.eqb upd];
  rewrite value_bind_ret.

Ltac loopback_transfer v fuel others :=
  match goal with
  | |- context [usci_transfer ?tx ?ifg ?flag ?rx (S fuel) ?inb ?p ?m] =>
      let H := fresh in
      pose proof (usci_transfer_loopback v fuel others inb m) as H;
      cbv zeta in H; cbn [backend_of txbuf flag_reg rx_flag rxbuf] in H;
      rewrite H; clear H
  end;
  cbn [option_map].

(* the level the port drives on data-out when the input register is read *)
Ltac decide_driven_level :=
  match goal with
  | |- context [Z.testbit ?e ?k] =>
      let H := fresh in
      first [ assert (H : Z.testbit e k = true) by by_bytes
            | assert (H : Z.testbit e k = false) by by_bytes ];
      rewrite H; clear H
  end.

Ltac decide_sample :=
  match goal with
  | |- context [nonzero (Z.setbit ?o ?n mod 256 .& ?b)] =>
      let k := eval vm_compute in (Z.log2 b) in
      change b with (Z.shiftl 1 k);
      rewrite (sample_setbit o n k) by lia;
      let t := eval vm_compute in (n =? k) in
      change (n =? k) with t
  | |- context [nonzero (Z.clearbit ?o ?n mod 256 .& ?b)] =>
      let k := eval vm_compute in (Z.log2 b) in
      change b with (Z.shiftl 1 k);
      rewrite (sample_clearbit o n k) by lia;
      let t := eval vm_compute in (n =? k) in
      change (n =? k) with t
  end.

(** Seven of the eight definitions echo every nine-bit value under
    loopback. *)
Lemma transfer9_loopback_echo (v : bitbang) fuel others inw m :
  v <> BB_USCI_B_G2xx3 ->
  0 <= inw <= 511 ->
  value (spi_transfer9_of v (S fuel) inw (loopback v others) m) = Some inw.
Proof.
  intros Hv Hinw. destruct m as [rf l].
  pose proof (nine_bits_recombine inw Hinw) as R.
  destruct v; try (exfalso; apply Hv; reflexivity);
  run_loopback inw E8;
  [ loopback_transfer BB_USCI_A_G2xx3 fuel others
  | loopback_transfer BB_USCI_A_G2xx3 fuel others
  | loopback_transfer BB_USCI_A_G2xx4 fuel others
  | loopback_transfer BB_USCI_A_G2xx4 fuel others
  | loopback_transfer BB_USCI_B_G2xx4 fuel others
  | loopback_transfer BB_USCI_B_G2xx4 fuel others
  | loopback_transfer BB_USCI_A_F5172 fuel others
  | loopback_transfer BB_USCI_A_F5172 fuel others
  | loopback_transfer BB_USCI_A_F5529 fuel others
  | loopback_transfer BB_USCI_A_F5529 fuel others
  | loopback_transfer BB_USCI_B_F5172 fuel others
  | loopback_transfer BB_USCI_B_F5172 fuel others
  | loopback_transfer BB_USCI_B_F5529 fuel others
  | loopback_transfer BB_USCI_B_F5529 fuel others ];
  decide_driven_level; decide_sample;
  rewrite low_byte_mod; rewrite low_byte_mod in R;
  f_equal; exact R.
Qed.

(** What the USCI_B definition for the G2xx3 returns under loopback: the
    low byte, and in bit 8 the level of pin P1.4, which is none of the SPI
    pins. *)
Lemma transfer9_USCI_B_G2xx3_loopback fuel others inw m :
  value (spi_transfer9_of BB_USCI_B_G2xx3 (S fuel) inw
           (loopback BB_USCI_B_G2xx3 others) m)
  = Some ((if Z.testbit others 4 then 0x100 else 0) .| (inw .& 0xFF)).
Proof.
  destruct m as [rf l].
  run_loopback inw E8; loopback_transfer BB_USCI_B_G2xx3 fuel others;
  decide_driven_level; decide_sample;
  rewrite low_byte_mod; destruct (Z.testbit others 4); reflexivity.
Qed.

(** C2 (the code at the failing input).  On the G2xx3 USCI_B backend, with
    data-out (P1.7) wired to data-in (P1.6) and the other pins of port 1
    low, [spi_transfer9 (0x100)] returns 0: the code samples [P1IN & BIT4],
    a pin that is not the data-in pin.  Whatever level P1.4 carries, one of
    the two inputs 0 and 0x100 is not echoed. *)
Theorem transfer9_USCI_B_G2xx3_not_echoed :
  value (spi_transfer9_of BB_USCI_B_G2xx3 1 0x100
           (loopback BB_USCI_B_G2xx3 0) reset_machine) = Some 0
  /\ forall others fuel m,
       exists inw, 0 <= inw <= 511 /\
         value (spi_transfer9_of BB_USCI_B_G2xx3 (S fuel) inw
                  (loopback BB_USCI_B_G2xx3 others) m) <> Some inw.
Proof.
  split; [vm_compute; reflexivity|].
  intros others fuel m.
  exists (if Z.testbit others 4 then 0 else 0x100).
  split; [destruct (Z.testbit others 4); lia|].
  rewrite transfer9_USCI_B_G2xx3_loopback.
  destruct (Z.testbit others 4); vm_compute; discriminate.
Qed.

(** ** C7: the byte transfer returns exactly when the hardware completes *)

Lemma total_poll b : total (poll b).
Proof.
  intros p m. destruct b; cbn [poll]; unfold bind, lpm0, rd, ret;
  eexists; eexists; reflexivity.
Qed.

Lemma total_start b inb : total (start b inb).
Proof.
  intros p m. destruct b; cbn [start]; unfold set_bits, bind, rd, wr;
  eexists; eexists; reflexivity.
Qed.

(** Each [spi_transfer] is: start the exchange, poll, finish. *)
Lemma while_wait ifg flag fuel p m :
  while fuel (f <- rd ifg ;; ret (negb (nonzero (f .& flag)))) (ret tt) p m
  = wait (f <- rd ifg ;; ret (nonzero (f .& flag))) fuel p m.
Proof.
  revert m. induction fuel as [|n IH]; intros m; [reflexivity|].
  cbn [while wait]. unfold bind. cbn [rd ret].
  destruct (nonzero _); cbn [negb].
  - reflexivity.
  - exact (IH _).
Qed.

Lemma do_while_wait fuel p m :
  do_while fuel lpm0 (c <- rd USICNT ;; ret (nonzero (c .& 0x1F))) p m
  = wait (lpm0 ;; c <- rd USICNT ;; ret (negb (nonzero (c .& 0x1F)))) fuel p m.
Proof.
  revert m. induction fuel as [|n IH]; intros m; [reflexivity|].
  cbn [do_while wait]. unfold bind. cbn [lpm0 rd ret].
  destruct (nonzero _); cbn [negb].
  - exact (IH _).
  - reflexivity.
Qed.

Lemma spi_transfer_shape b fuel inb p m :
  spi_transfer_of b fuel inb p m
  = (start b inb ;; wait (poll b) fuel ;; finish b) p m.
Proof.
  destruct b; cbn [spi_transfer_of start poll finish flag_reg rx_flag rxbuf txbuf];
  [ unfold USI.spi_transfer
  | unfold USCI_A_G2xx3.spi_transfer | unfold USCI_B_G2xx3.spi_transfer
  | unfold USCI_A_G2xx4.spi_transfer | unfold USCI_B_G2xx4.spi_transfer
  | unfold USCI_A_F5xxx.spi_transfer | unfold USCI_B_F5xxx.spi_transfer ];
  step; unfold bind at 1; try rewrite while_wait; try rewrite do_while_wait;
  reflexivity.
Qed.

Lemma wait_returns poll (Htot : total poll) k :
  forall p m fuel,
    succeeds_after poll k p m -> (k < fuel)%nat ->
    exists m', wait poll fuel p m = Returned tt m'.
Proof.
  induction k as [|k IH]; intros p m fuel Hk Hf;
  (destruct fuel as [|n]; [lia|]); cbn [wait]; unfold bind;
  unfold succeeds_after in Hk; cbn [nth_poll] in Hk;
  destruct (Htot p m) as [b [m1 E]].
  - rewrite E in *. cbn [value] in Hk. injection Hk as ->.
    eexists. reflexivity.
  - unfold bind in Hk. rewrite E in *. destruct b.
    + eexists. reflexivity.
    + apply IH; [exact Hk|lia].
Qed.

Lemma wait_spins poll (Htot : total poll) fuel :
  forall p m,
    (forall k, ~ succeeds_after poll k p m) ->
    exists m', wait poll fuel p m = Spinning m'.
Proof.
  induction fuel as [|n IH]; intros p m Hnever; [eexists; reflexivity|].
  cbn [wait]. unfold bind. destruct (Htot p m) as [b [m1 E]]. rewrite E.
  destruct b.
  - exfalso. apply (Hnever O). unfold succeeds_after. cbn [nth_poll].
    rewrite E. reflexivity.
  - apply IH. intros k Hk. apply (Hnever (S k)).
    unfold succeeds_after in *. cbn [nth_poll]. unfold bind. rewrite E.
    exact Hk.
Qed.

Lemma wait_returned_succeeds poll (Htot : total poll) fuel :
  forall p m m',
    wait poll fuel p m = Returned tt m' ->
    exists k, (k < fuel)%nat /\ succeeds_after poll k p m.
Proof.
  induction fuel as [|n IH]; intros p m m' H; [discriminate H|].
  cbn [wait] in H. unfold bind in H. destruct (Htot p m) as [b [m1 E]].
  rewrite E in H. destruct b.
  - exists O. split; [lia|]. unfold succeeds_after. cbn [nth_poll].
    rewrite E. reflexivity.
  - destruct (IH p m1 m' H) as [k [Hk Hs]]. exists (S k). split; [lia|].
    unfold succeeds_after in *. cbn [nth_poll]. unfold bind. rewrite E.
    exact Hs.
Qed.

Lemma complete_at_succeeds b inb p m k :
  complete_at b inb p m k
  <-> succeeds_after (poll b) k p (final (start b inb p m)).
Proof.
  unfold complete_at, succeeds_after. unfold bind at 1.
  destruct (total_start b inb p m) as [[] [m1 E]]. rewrite E. cbn [final].
  reflexivity.
Qed.

Lemma finish_log b p m :
  exists x m' l, finish b p m = Returned x m' /\ log m' = l ++ [Rd (rxbuf b) x].
Proof.
  destruct b; cbn [finish rxbuf]; unfold and_bits, bind, rd, wr;
  eexists; eexists; eexists; (split; [reflexivity|]); cbn [log]; reflexivity.
Qed.

(** [spi_transfer] returns within [fuel] polls exactly when the hardware
    reports completion at one of them. *)
Lemma spi_transfer_returns_iff (b : backend) fuel inb p m :
  (exists x, value (spi_transfer_of b fuel inb p m) = Some x)
  <-> exists k, (k < fuel)%nat /\ complete_at b inb p m k.
Proof.
  rewrite spi_transfer_shape; unfold bind at 1;
  destruct (total_start b inb p m) as [[] [m1 E]];
  pose proof (complete_at_succeeds b inb p m) as C;
  rewrite E in *; cbn [final] in C; unfold bind at 1.
  split.
  - intros [x Hx].
    destruct (wait (poll b) fuel p m1) as [[] m2|m2] eqn:W; [|discriminate Hx].
    destruct (wait_returned_succeeds _ (total_poll b) _ _ _ _ W) as [k [Hk Hs]].
    exists k. split; [exact Hk|]. apply C. exact Hs.
  - intros [k [Hk Hc]]. apply C in Hc.
    destruct (wait_returns _ (total_poll b) k p m1 fuel Hc Hk) as [m2 W].
    rewrite W. destruct (finish_log b p m2) as [x [m' [l [F _]]]].
    exists x. rewrite F. reflexivity.
Qed.

(** The value [spi_transfer] returns is what its closing read of the
    receive register yielded. *)
Lemma spi_transfer_returns_read (b : backend) fuel inb p m :
  match spi_transfer_of b fuel inb p m with
  | Returned x m' => exists l, log m' = l ++ [Rd (rxbuf b) x]
  | Spinning _ => True
  end.
Proof.
  rewrite spi_transfer_shape; unfold bind at 1;
  destruct (total_start b inb p m) as [[] [m1 E]];
  rewrite E; unfold bind at 1.
  destruct (wait (poll b) fuel p m1) as [[] m2|m2]; [|exact I].
  destruct (finish_log b p m2) as [x [m' [l [F L]]]]. rewrite F.
  exists l. exact L.
Qed.

(** Termination under the precondition, and unboundedness without it. *)
Lemma spi_transfer_terminates (b : backend) inb p m k :
  complete_at b inb p m k ->
  forall fuel, (k < fuel)%nat ->
    exists x, value (spi_transfer_of b fuel inb p m) = Some x.
Proof.
  intros Hc fuel Hk. apply spi_transfer_returns_iff.
  exists k. split; assumption.
Qed.

Lemma spi_transfer_unbounded (b : backend) inb p m :
  (forall k, ~ complete_at b inb p m k) ->
  forall fuel, value (spi_transfer_of b fuel inb p m) = None.
Proof.
  intros Hn fuel.
  destruct (value (spi_transfer_of b fuel inb p m)) as [x|] eqn:E; [|reflexivity].
  exfalso.
  destruct (proj1 (spi_transfer_returns_iff b fuel inb p m)) as [k [_ Hk]];
    [exists x; exact E|].
  exact (Hn k Hk).
Qed.

(** C7.  For each of the seven backends, every input byte, every hardware
    and every entry state: if the hardware reports completion (RXIFG set,
    or the low five bits of USICNT zero on the USI) at the poll that follows
    [k] polls after the write that starts the exchange, [spi_transfer]
    returns as soon as more than [k] polls are allowed, and the value it
    returns is the one its closing read of the receive register yielded; if
    the hardware never reports completion, [spi_transfer] does not return
    within any number of polls: the code has no timeout. *)
Theorem transfer_returns_iff_complete (b : backend) inb p m :
  (forall k, complete_at b inb p m k ->
     forall fuel, (k < fuel)%nat ->
       exists x m' l,
         spi_transfer_of b fuel inb p m = Returned x m'
         /\ log m' = l ++ [Rd (rxbuf b) x])
  /\ ((forall k, ~ complete_at b inb p m k) ->
      forall fuel, value (spi_transfer_of b fuel inb p m) = None)
  /\ (forall fuel,
        (exists x, value (spi_transfer_of b fuel inb p m) = Some x)
        <-> exists k, (k < fuel)%nat /\ complete_at b inb p m k).
Proof.
  split; [|split].
  - intros k Hc fuel Hk.
    destruct (spi_transfer_terminates b inb p m k Hc fuel Hk) as [x Hx].
    pose proof (spi_transfer_returns_read b fuel inb p m) as R.
    destruct (spi_transfer_of b fuel inb p m) as [y m'|m']; [|discriminate Hx].
    destruct R as [l L]. exists y, m', l. split; [reflexivity|exact L].
  - apply spi_transfer_unbounded.
  - intros fuel. apply spi_transfer_returns_iff.
Qed.

(** On the loopback hardware the exchange is complete at the first poll,
    and the byte comes back. *)
Lemma transfer_returns_iff_complete_witness :
  complete_at B_USCI_A_G2xx3 0x55 (loopback BB_USCI_A_G2xx3 0) reset_machine 0
  /\ exists x m' l,
       spi_transfer_of B_USCI_A_G2xx3 1 0x55 (loopback BB_USCI_A_G2xx3 0)
         reset_machine = Returned x m'
       /\ log m' = l ++ [Rd UCA0RXBUF x].
Proof.
  assert (H : complete_at B_USCI_A_G2xx3 0x55 (loopback BB_USCI_A_G2xx3 0)
                reset_machine 0) by (vm_compute; reflexivity).
  split; [exact H|].
  apply (proj1 (transfer_returns_iff_complete B_USCI_A_G2xx3 0x55
                  (loopback BB_USCI_A_G2xx3 0) reset_machine) 0%nat H 1%nat).
  lia.
Defined.

(** ** C5: which entry points a build defines *)

(** On every supported build [spi_init], [spi_transfer] and
    [spi_transfer16] are defined exactly once. *)
Lemma supported_define_three b :
  In b supported ->
  definitions spi_init b = 1%nat
  /\ definitions spi_transfer b = 1%nat
  /\ definitions spi_transfer16 b = 1%nat.
Proof.
  unfold supported. cbn [In]. intros H.
  repeat (destruct H as [<-|H]; [repeat split; reflexivity|]).
  contradiction.
Qed.

(** Seven of the nine supported builds define [spi_transfer9] once. *)
Lemma supported_define_transfer9 b :
  In b supported -> b <> F5172_USCI_A -> b <> F5529_USCI_A ->
  definitions spi_transfer9 b = 1%nat.
Proof.
  unfold supported. cbn [In]. intros H H1 H2.
  repeat (destruct H as [<-|H];
          [first [reflexivity | exfalso; apply H1; reflexivity
                 | exfalso; apply H2; reflexivity]|]).
  contradiction.
Qed.

(** C5 (the code at the failing input).  The builds for USCI_A on the F5172
    and on the F5529 are supported builds and define the three other entry
    points, but no [spi_transfer9]: its two definitions in that block are
    guarded by [__MS430F5172] and [__MS430F5529], names that the block's
    [spi_init] and the USCI_B block spell [__MSP430F5172] and
    [__MSP430F5529].  With the misspelt names defined as well, each build has
    its [spi_transfer9]; the USCI_B builds of the same devices have one. *)
Theorem F5xxx_USCI_A_lacks_transfer9 :
  In F5172_USCI_A supported /\ In F5529_USCI_A supported
  /\ definitions spi_transfer9 F5172_USCI_A = 0%nat
  /\ definitions spi_transfer9 F5529_USCI_A = 0%nat
  /\ definitions spi_init F5172_USCI_A = 1%nat
  /\ definitions spi_init F5529_USCI_A = 1%nat
  /\ definitions spi_transfer9
       (Build false false false true true true false true false true false)
     = 1%nat
  /\ definitions spi_transfer9
       (Build false false false true true true false false true false true)
     = 1%nat
  /\ definitions spi_transfer9 F5172_USCI_B = 1%nat
  /\ definitions spi_transfer9 F5529_USCI_B = 1%nat.
Proof.
  repeat split; try reflexivity; unfold supported; cbn [In]; tauto.
Qed.

(** ** C6: [spi_init] is idempotent *)

Section Simulation.

Variable p : platform.
Variables l1 l2 : list event.
Hypothesis Hhw : same_hardware p l1 l2.

Lemma respects_ret {A} (a : A) : respects p l1 l2 (ret a).
Proof. intros m1 m2 H. split; [reflexivity|exact H]. Qed.

Lemma respects_bind {A B} (c : M A) (f : A -> M B) :
  respects p l1 l2 c -> (forall a, respects p l1 l2 (f a)) ->
  respects p l1 l2 (bind c f).
Proof.
  intros Hc Hf m1 m2 H. unfold bind. specialize (Hc m1 m2 H).
  destruct (c p m1) as [a m1'|m1'], (c p m2) as [b m2'|m2'];
    cbn [sim_outcome] in Hc; try contradiction.
  - destruct Hc as [<- Hc]. apply Hf. exact Hc.
  - exact Hc.
Qed.

Lemma respects_rd r : respects p l1 l2 (rd r).
Proof.
  intros [rf a] [rf' b] [Hr [h [Ha Hb]]]. cbn [regs log] in *. subst.
  cbn [rd sim_outcome regs log]. rewrite Hhw. split; [reflexivity|].
  split; [reflexivity|]. cbn [log]. eexists.
  rewrite <- !app_assoc. split; reflexivity.
Qed.

Lemma respects_wr r v : respects p l1 l2 (wr r v).
Proof.
  intros [rf a] [rf' b] [Hr [h [Ha Hb]]]. cbn [regs log] in *. subst.
  cbn [wr sim_outcome regs log]. split; [reflexivity|].
  split; [reflexivity|]. cbn [log]. eexists.
  rewrite <- !app_assoc. split; reflexivity.
Qed.

Lemma respects_lpm0 : respects p l1 l2 lpm0.
Proof.
  intros [rf a] [rf' b] [Hr [h [Ha Hb]]]. cbn [regs log] in *. subst.
  cbn [lpm0 sim_outcome regs log]. split; [reflexivity|].
  split; [reflexivity|]. cbn [log]. eexists.
  rewrite <- !app_assoc. split; reflexivity.
Qed.

Lemma respects_while fuel cond body :
  respects p l1 l2 cond -> respects p l1 l2 body ->
  respects p l1 l2 (while fuel cond body).
Proof.
  intros Hc Hb. induction fuel as [|n IH]; [intros m1 m2 H; exact H|].
  cbn [while]. apply respects_bind; [exact Hc|]. intros [|].
  - apply respects_bind; [exact Hb|]. intros _. exact IH.
  - apply respects_ret.
Qed.

Lemma respects_do_while fuel body cond :
  respects p l1 l2 body -> respects p l1 l2 cond ->
  respects p l1 l2 (do_while fuel body cond).
Proof.
  intros Hb Hc. induction fuel as [|n IH]; [intros m1 m2 H; exact H|].
  cbn [do_while]. apply respects_bind; [exact Hb|]. intros _.
  apply respects_bind; [exact Hc|]. intros [|].
  - exact IH.
  - apply respects_ret.
Qed.

Lemma respects_spi_transfer b fuel inb :
  respects p l1 l2 (spi_transfer_of b fuel inb).
Proof.
  destruct b; cbn [spi_transfer_of];
  [ unfold USI.spi_transfer
  | unfold USCI_A_G2xx3.spi_transfer | unfold USCI_B_G2xx3.spi_transfer
  | unfold USCI_A_G2xx4.spi_transfer | unfold USCI_B_G2xx4.spi_transfer
  | unfold USCI_A_F5xxx.spi_transfer | unfold USCI_B_F5xxx.spi_transfer ];
  unfold set_bits, and_bits;
  repeat first
    [ apply respects_rd | apply respects_wr | apply respects_lpm0
    | apply respects_ret | apply respects_while | apply respects_do_while
    | apply respects_bind | intros ? ].
Qed.

End Simulation.

Ltac unfold_init :=
  cbn [spi_init_of];
  unfold USI.spi_init, USCI_A_G2xx3.spi_init, USCI_B_G2xx3.spi_init,
         USCI_A_G2xx4.spi_init, USCI_B_G2xx4.spi_init,
         USCI_A_F5xxx.spi_init, USCI_B_F5xxx.spi_init.

(** The registers after two calls of [spi_init] are those after one. *)
Lemma spi_init_twice_regs (b : backend) f5172 f5529 p m :
  regs (final ((spi_init_of b f5172 f5529 ;; spi_init_of b f5172 f5529) p m))
  = regs (final (spi_init_of b f5172 f5529 p m)).
Proof.
  destruct m as [rf l].
  destruct b, f5172, f5529; unfold_init; step;
  apply functional_extensionality; intros r;
  destruct r; cbn [upd reg_eqb reg_tag Pos.eqb];
  first [reflexivity | by_bytes].
Qed.

(** C6.  For each of the seven [spi_init] definitions (the F5xxx ones for
    each pin routing) and every starting state, the register file after two
    calls in succession equals the register file after one; hence, on
    hardware that answers alike after the two histories, [spi_transfer
    (0x55)] gives the same result in both cases (the same value, or no
    return within the same bound). *)
Theorem spi_init_idempotent (b : backend) f5172 f5529 p m :
  let init := spi_init_of b f5172 f5529 in
  let once := final (init p m) in
  let twice := final ((init ;; init) p m) in
  regs twice = regs once
  /\ (same_hardware p (log twice) (log once) ->
      forall fuel,
        value (spi_transfer_of b fuel 0x55 p twice)
        = value (spi_transfer_of b fuel 0x55 p once)).
Proof.
  cbv zeta. split; [apply spi_init_twice_regs|].
  intros Hhw fuel.
  pose proof (respects_spi_transfer p _ _ Hhw b fuel 0x55) as R.
  specialize (R (final ((spi_init_of b f5172 f5529 ;; spi_init_of b f5172 f5529) p m))
                (final (spi_init_of b f5172 f5529 p m))).
  match type of R with
  | ?S -> _ => assert (HS : S)
  end.
  { split; [apply spi_init_twice_regs|].
    exists []. rewrite !app_nil_r. split; reflexivity. }
  specialize (R HS).
  destruct (spi_transfer_of b fuel 0x55 p _) as [x m1|m1],
           (spi_transfer_of b fuel 0x55 p _) as [y m2|m2];
    cbn [sim_outcome] in R; try contradiction.
  - destruct R as [-> _]. reflexivity.
  - reflexivity.
Qed.

(** On the loopback hardware, which does not look at the history, the byte
    0x55 comes back after one call of [spi_init] and after two. *)
Lemma spi_init_idempotent_loopback :
  let p := loopback BB_USCI_A_G2xx3 0 in
  let init := spi_init_of B_USCI_A_G2xx3 false false in
  value (spi_transfer_of B_USCI_A_G2xx3 1 0x55 p
           (final ((init ;; init) p reset_machine))) = Some 0x55
  /\ value (spi_transfer_of B_USCI_A_G2xx3 1 0x55 p
              (final (init p reset_machine))) = Some 0x55.
Proof. split; vm_compute; reflexivity. Qed.

(** ** C3: the 16-bit transfer and two byte transfers *)

Lemma spi_transfer16_usci b :
  is_usci b = true ->
  spi_transfer16_of b
  = usci_transfer16 (txbuf b) (flag_reg b) (rx_flag b) (rxbuf b).
Proof. destruct b; intros H; try discriminate H; reflexivity. Qed.

Lemma usci_regs_bytes b :
  is_usci b = true -> modulus (txbuf b) = 256 /\ modulus (rxbuf b) = 256.
Proof. destruct b; intros H; try discriminate H; split; reflexivity. Qed.

Lemma high_byte_shift v : ((v / 256) mod 256) mod 256 = Z.shiftr v 8 mod 256.
Proof.
  rewrite Z.mod_mod by lia. rewrite Z.shiftr_div_pow2 by lia. reflexivity.
Qed.

Lemma low_byte_land v : (v mod 256) mod 256 = (v .& 255) mod 256.
Proof.
  change 255 with (Z.ones 8). rewrite Z.land_ones by lia. reflexivity.
Qed.

Lemma bytes_recombine x y :
  0 <= x < 256 -> 0 <= y < 256 ->
  y mod 256 + 256 * (x mod 256) = Z.shiftl x 8 .| y.
Proof.
  intros Hx Hy.
  assert (E : forall a, 0 <= a < 256 ->
            forall_below 256 (fun b => (b mod 256 + 256 * (a mod 256)
                                        =? Z.shiftl a 8 .| b)) = true).
  { apply (byte_check (fun a => forall_below 256 (fun b =>
             (b mod 256 + 256 * (a mod 256) =? Z.shiftl a 8 .| b)))).
    vm_compute. reflexivity. }
  apply Z.eqb_eq.
  exact (byte_check _ (E x Hx) y Hy).
Qed.

(** On a little-endian host the USCI 16-bit transfer is, event for event,
    the transfer of the high byte followed by the transfer of the low
    byte. *)
Lemma usci_transfer16_two_bytes tx ifg flag rx fuel v p m :
  modulus tx = 256 -> modulus rx = 256 ->
  byte_order p = LittleEndian ->
  usci_transfer16 tx ifg flag rx fuel v p m
  = (hi <- usci_transfer tx ifg flag rx fuel (Z.shiftr v 8) ;;
     lo <- usci_transfer tx ifg flag rx fuel (v .& 0xFF) ;;
     ret (Z.shiftl hi 8 .| lo)) p m.
Proof.
  intros Htx Hrx He.
  unfold usci_transfer16, usci_transfer, bind, host_order, wr, rd, ret.
  rewrite He, Htx, Hrx.
  cbn [bytes_of_u16 byte_at store_byte u16_of_bytes fst snd].
  rewrite high_byte_shift, low_byte_land.
  destruct (while fuel _ _ p _) as [[] m1|m1]; [|reflexivity].
  destruct (while fuel _ _ p _) as [[] m2|m2]; [|reflexivity].
  f_equal.
  apply bytes_recombine; apply Z.mod_pos_bound; reflexivity.
Qed.

Lemma observably_equal_refl {A} (o1 o2 : outcome A) :
  o1 = o2 -> observably_equal o1 o2.
Proof. intros ->. split; reflexivity. Qed.

(** C3 (as amended).  On each of the six USCI backends, on a little-endian
    host, for every 16-bit value, every hardware behaviour and every entry
    state, [spi_transfer16 (v)] performs exactly the register accesses of
    [spi_transfer (v >> 8)] followed by [spi_transfer (v & 0xFF)] and
    returns the first received byte as the high byte and the second as the
    low byte: the two runs end in the same outcome, so they have the same
    writes and the same return value. *)
Theorem transfer16_is_two_transfers (b : backend) fuel v p m :
  is_usci b = true ->
  byte_order p = LittleEndian ->
  spi_transfer16_of b fuel v p m = transfer16_spec b fuel v p m
  /\ observably_equal (spi_transfer16_of b fuel v p m)
                      (transfer16_spec b fuel v p m).
Proof.
  intros Hb He.
  assert (E : spi_transfer16_of b fuel v p m = transfer16_spec b fuel v p m).
  { unfold transfer16_spec.
    rewrite (spi_transfer16_usci b Hb), (spi_transfer_usci b Hb).
    destruct (usci_regs_bytes b Hb) as [Htx Hrx].
    apply usci_transfer16_two_bytes; assumption. }
  split; [exact E|apply observably_equal_refl; exact E].
Qed.

Lemma transfer16_is_two_transfers_witness :
  is_usci B_USCI_A_G2xx3 = true
  /\ byte_order (loopback BB_USCI_A_G2xx3 0) = LittleEndian
  /\ observably_equal
       (spi_transfer16_of B_USCI_A_G2xx3 1 0x1234
          (loopback BB_USCI_A_G2xx3 0) reset_machine)
       (transfer16_spec B_USCI_A_G2xx3 1 0x1234
          (loopback BB_USCI_A_G2xx3 0) reset_machine)
  /\ value (spi_transfer16_of B_USCI_A_G2xx3 1 0x1234
              (loopback BB_USCI_A_G2xx3 0) reset_machine) = Some 0x1234.
Proof.
  split; [reflexivity|]. split; [reflexivity|].
  split; [|vm_compute; reflexivity].
  exact (proj2 (transfer16_is_two_transfers B_USCI_A_G2xx3 1 0x1234
                  (loopback BB_USCI_A_G2xx3 0) reset_machine eq_refl eq_refl)).
Defined.

(** C3 (counterexample).  On the USI backend [spi_transfer16 (0x1234)] is
    one 16-bit exchange: it writes the word to [USISR] and 16 | USI16B to
    [USICNT], where two byte transfers write 0x12 and 0x34 to [USISRL] and
    8 to [USICNT] twice. *)
Lemma transfer16_USI_is_one_exchange :
  ~ observably_equal
      (spi_transfer16_of B_USI 1 0x1234 idle_hardware reset_machine)
      (transfer16_spec B_USI 1 0x1234 idle_hardware reset_machine).
Proof.
  intros [_ H]. vm_compute in H. discriminate H.
Qed.

Lemma transfer16_USI_writes :
  writes (log (final (spi_transfer16_of B_USI 1 0x1234 idle_hardware
                        reset_machine)))
  = [(USICTL1, 0x10); (USISR, 0x1234); (USICNT, 0x50); (USICTL1, 0)]
  /\ writes (log (final (transfer16_spec B_USI 1 0x1234 idle_hardware
                           reset_machine)))
     = [(USICTL1, 0x10); (USISRL, 0x12); (USICNT, 8); (USICTL1, 0);
        (USICTL1, 0x10); (USISRL, 0x34); (USICNT, 8); (USICTL1, 0)].
Proof. split; vm_compute; reflexivity. Qed.

(** ** C4: which byte [spi_transfer16] sends first *)



Lemma while_returned ifg flag fuel p m m' :
  while fuel (f <- rd ifg ;; ret (negb (nonzero (f .& flag)))) (ret tt) p m
  = Returned tt m' ->
  exists polls, log m' = log m ++ polls /\ forallb is_read polls = true.
Proof.
  intros H. destruct (wait_final ifg flag fuel p m) as [polls [E F]].
  rewrite H in E. cbn [final] in E. subst m'. exists polls.
  split; [reflexivity|exact F].
Qed.






(** ** C8: the wires during [spi_transfer9 (0x1C3)] *)

Lemma wait_reads ifg flag fuel p m :
  exists polls,
    final (while fuel (f <- rd ifg ;; ret (negb (nonzero (f .& flag)))) (ret tt) p m)
    = {| regs := regs m; log := log m ++ polls |}
    /\ forallb (reads_of [ifg]) polls = true.
Proof.
  revert m. induction fuel as [|n IH]; intros m.
  - exists []. rewrite app_nil_r. destruct m; split; reflexivity.
  - cbn [while]. unfold bind at 1. unfold bind at 1.
    cbn [rd ret].
    set (v := _ mod modulus ifg).
    destruct (negb (nonzero (v .& flag))).
    + unfold bind at 1. cbn [ret].
      destruct (IH {| regs := regs m; log := log m ++ [Rd ifg v] |}) as [polls [E F]].
      exists (Rd ifg v :: polls). rewrite E. cbn [regs log].
      rewrite <- app_assoc. split; [reflexivity|].
      cbn [forallb reads_of mem_reg existsb]. rewrite reg_eqb_refl, F. reflexivity.
    + exists [Rd ifg v]. split; [reflexivity|].
      cbn [forallb reads_of mem_reg existsb]. rewrite reg_eqb_refl. reflexivity.
Qed.

Lemma reads_of_weaken rs rs' l :
  (forall r, mem_reg r rs = true -> mem_reg r rs' = true) ->
  forallb (reads_of rs) l = true -> forallb (reads_of rs') l = true.
Proof.
  intros Hsub. induction l as [|e l IH]; intros H; [reflexivity|].
  cbn [forallb] in *. apply andb_true_iff in H. destruct H as [He Hl].
  rewrite (IH Hl), andb_true_r. destruct e; try discriminate He.
  cbn [reads_of] in *. apply Hsub. exact He.
Qed.

Lemma usci_transfer_reads tx ifg flag rx fuel inb p m :
  exists reads,
    final (usci_transfer tx ifg flag rx fuel inb p m)
    = {| regs := upd tx (inb mod modulus tx) (regs m);
         log := log m ++ Wr tx (inb mod modulus tx) :: reads |}
    /\ forallb (reads_of [ifg; rx]) reads = true.
Proof.
  unfold usci_transfer. unfold bind at 1. cbn [wr].
  set (m1 := {| regs := _; log := _ |}).
  destruct (wait_reads ifg flag fuel p m1) as [polls [E F]].
  assert (F' : forallb (reads_of [ifg; rx]) polls = true).
  { revert F. apply reads_of_weaken. intros r. cbn [mem_reg existsb].
    intros H. rewrite orb_false_r in H. rewrite H. reflexivity. }
  unfold bind at 1.
  destruct (while _ _ _ p m1) as [[] m2|m2]; cbn [final] in E; subst m2.
  - cbn [rd final regs log]. eexists (polls ++ [_]). split.
    + subst m1. cbn [regs log]. rewrite <- !app_assoc. reflexivity.
    + rewrite forallb_app, F'. cbn [forallb reads_of mem_reg existsb].
      rewrite reg_eqb_refl, orb_true_r. reflexivity.
  - exists polls. subst m1. cbn [final regs log]. rewrite <- app_assoc.
    split; [reflexivity|exact F'].
Qed.

Lemma wire_trace_reads v rs rf reads :
  forallb (reads_of rs) reads = true ->
  mem_reg (sample_reg (pins v)) rs = false ->
  wire_trace v rf reads = [].
Proof.
  intros H Hs. induction reads as [|e reads IH]; [reflexivity|].
  cbn [forallb] in H. apply andb_true_iff in H. destruct H as [He Hl].
  destruct e as [r x| |]; try discriminate He.
  cbn [wire_trace apply_event]. rewrite (IH Hl), app_nil_r.
  destruct (reg_eqb r (sample_reg (pins v))) eqn:E; [|reflexivity].
  apply reg_eqb_eq in E. subst r. cbn [reads_of] in He.
  rewrite He in Hs. discriminate Hs.
Qed.

Ltac transfer_reads reads F :=
  rewrite final_bind_ret;
  match goal with
  | |- context [usci_transfer ?tx ?ifg ?flag ?rx ?fuel ?inb ?p ?m] =>
      destruct (usci_transfer_reads tx ifg flag rx fuel inb p m) as [reads [?E F]];
      rewrite E; clear E
  end;
  cbn [regs log modulus]; norm_log.

(* the select bits of the three pins on entry *)
Ltac pin_simpl_in H :=
  cbn [spi_pin_list pins clock data_out data_in sample_reg
       pin_out pin_dir pin_ren pin_sel pin_sel2 pin_index
       P1_G2xx3 P3_G2xx4 P1_F5xxx P2_F5xxx P3_F5xxx
       upd reg_eqb reg_tag Pos.eqb] in H.

Ltac routed_facts H :=
  unfold peripheral_function, spi_pin_list in H; pin_simpl_in H;
  repeat match type of H with
  | Forall _ (_ :: _) =>
      let H1 := fresh "Hsel" in
      let H2 := fresh "Hsel" in
      destruct (Forall_inv H) as [H1 H2];
      apply Forall_inv_tail in H;
      pin_simpl_in H1; pin_simpl_in H2
  end;
  clear H.

Ltac use_routed :=
  repeat match goal with
  | H : Z.testbit _ _ = _ |- _ => rewrite !H
  end.

Ltac decide_bits :=
  repeat (cbn [negb andb];
          match goal with
          | |- context [Z.testbit ?e ?k] =>
              let H := fresh in
              first [ assert (H : Z.testbit e k = true) by by_bytes
                    | assert (H : Z.testbit e k = false) by by_bytes ];
              rewrite !H; clear H
          end).

(** C8.  For each of the eight bit-banging definitions, entered with the
    three pins in peripheral-function role: what happens on the wires during
    [spi_transfer9 (0x1C3)] is, in this order and nothing else: the port
    takes over data-out and clock at low level, drives data-out high, drives
    the clock high, reads the port input register, drives the clock low, and
    then writes 0xC3 to the transmit buffer.  The clock is raised once, after
    data-out is set, and is low again before the hardware transfer starts. *)
Theorem transfer9_0x1C3_wire_trace (v : bitbang) fuel p m :
  peripheral_function v (regs m) ->
  exists evs x,
    log (final (spi_transfer9_of v fuel 0x1C3 p m)) = log m ++ evs
    /\ wire_trace v (regs m) evs
       = [DataOut false; Clock false; DataOut true; Clock true; Sample x;
          Clock false; HwTransfer 0xC3].
Proof.
  intros Hpf. destruct m as [rf l]. cbn [regs log] in *.
  remember 451 as inw eqn:Hinw.
  destruct v; (run_bitbang inw; subst inw; [|discriminate]);
  transfer_reads reads F;
  change ((451 .& 255) mod 256) with 195;
  match goal with
  | |- context [l ++ ?evs] => exists evs
  end;
  eexists; (split; [reflexivity|]);
  cbn [wire_trace]; cbn [apply_event];
  cbn [backend_of txbuf reg_eqb reg_tag Pos.eqb app];
  match goal with
  | HF : forallb (reads_of _) ?rs = true |- context [wire_trace ?v ?rf' ?rs] =>
      rewrite (wire_trace_reads v _ rf' rs HF eq_refl)
  end;
  unfold driven, gpio_output; pin_simpl;
  routed_facts Hpf; use_routed;
  decide_bits;
  cbn [negb andb edge Bool.eqb app];
  reflexivity.
Qed.

Lemma spi_init_routes_pins (v : bitbang) p m :
  let f5172 := match v with BB_USCI_A_F5172 | BB_USCI_B_F5172 => true | _ => false end in
  let f5529 := match v with BB_USCI_A_F5529 | BB_USCI_B_F5529 => true | _ => false end in
  peripheral_function v
    (regs (final (spi_init_of (backend_of v) f5172 f5529 p m))).
Proof.
  destruct m as [rf l].
  destruct v; cbv zeta; cbn [backend_of]; unfold_init; step; solve_routed.
Qed.

Lemma transfer9_0x1C3_wire_trace_witness :
  let p := loopback BB_USCI_A_G2xx3 0 in
  let m := final (spi_init_of B_USCI_A_G2xx3 false false p reset_machine) in
  peripheral_function BB_USCI_A_G2xx3 (regs m)
  /\ exists evs x,
       log (final (spi_transfer9_of BB_USCI_A_G2xx3 1 0x1C3 p m)) = log m ++ evs
       /\ wire_trace BB_USCI_A_G2xx3 (regs m) evs
          = [DataOut false; Clock false; DataOut true; Clock true; Sample x;
             Clock false; HwTransfer 0xC3].
Proof.
  cbv zeta.
  pose proof (spi_init_routes_pins BB_USCI_A_G2xx3
                (loopback BB_USCI_A_G2xx3 0) reset_machine) as H.
  split; [exact H|].
  apply (transfer9_0x1C3_wire_trace BB_USCI_A_G2xx3 1
           (loopback BB_USCI_A_G2xx3 0)). exact H.
Defined.

(** * Further properties of the code *)

(** ** [spi_init] *)

(** X1.  [spi_init] touches the ports only to route the three SPI pins:
    after it, for every starting state of byte registers, the three pins
    that the build's [spi_transfer9] repurposes are in peripheral-function
    role, every other bit of every port configuration register is as it
    was, and the direction, output and pull-resistor registers are
    unchanged. *)
Theorem spi_init_routes_only_spi_pins (v : bitbang) p m :
  byte_registers (regs m) ->
  let m' := final (spi_init_of (backend_of v) (device_F5172 v)
                     (device_F5529 v) p m) in
  peripheral_function v (regs m')
  /\ (forall r, is_port_config r = true ->
        regs m' r .& .~ (spi_pins v r) = regs m r .& .~ (spi_pins v r))
  /\ (forall r, In r (saved_regs v) -> regs m' r = regs m r).
Proof.
  intros Hb. destruct m as [rf l]. cbn [regs log] in *. cbv zeta.
  destruct v; cbn [backend_of device_F5172 device_F5529]; unfold_init; step;
  (split; [solve_routed|]);
  (split;
   [ intros r Hr; destruct r; try discriminate Hr;
     cbn [upd reg_eqb reg_tag Pos.eqb];
     first
       [ reflexivity
       | match goal with
         | |- context [spi_pins ?v ?r] =>
             let k := eval vm_compute in (spi_pins v r) in
             change (spi_pins v r) with k
         end;
         bytes_small Hb; abstract_regs Hb;
         lazymatch goal with
         | Hx : 0 <= ?x < 256 |- _ => byte_goal x Hx
         end ]
   | cbn [saved_regs In]; intros r Hr;
     repeat (destruct Hr as [<-|Hr]; [reflexivity|]); contradiction ]).
Qed.

Lemma spi_init_routes_only_spi_pins_witness :
  byte_registers (regs reset_machine)
  /\ peripheral_function BB_USCI_B_G2xx4
       (regs (final (spi_init_of B_USCI_B_G2xx4 false false
                       (loopback BB_USCI_B_G2xx4 0) reset_machine))).
Proof.
  split; [exact reset_machine_bytes|].
  exact (proj1 (spi_init_routes_only_spi_pins BB_USCI_B_G2xx4
                  (loopback BB_USCI_B_G2xx4 0) reset_machine
                  reset_machine_bytes)).
Defined.

(* decide the membership tests and the reset bit at each write of a run *)
Ltac solve_under_reset :=
  cbn [written_under_reset apply_event mem_reg existsb mode_regs reset_reg
       upd reg_eqb reg_tag Pos.eqb orb];
  repeat match goal with
  | |- _ /\ _ => split
  | |- True => exact I
  | |- false = true -> _ => intros H; discriminate H
  | |- true = true -> _ => intros _
  | |- Z.testbit _ _ = _ => by_bytes
  end.

(** X2.  [spi_init] configures the peripheral while it holds it in reset:
    on each of the seven backends and from every starting state, each write
    to a mode or clock register ([USICTL1], [USICKCTL]; [UCx0CTL0],
    [UCx0BR0], [UCx0BR1], [UCA0MCTL]) is made with the software-reset bit
    set, each of these registers is written exactly once, and when
    [spi_init] returns the reset bit is clear. *)
Theorem spi_init_configures_under_reset (b : backend) f5172 f5529 p m :
  exists evs,
    let m' := final (spi_init_of b f5172 f5529 p m) in
    log m' = log m ++ evs
    /\ written_under_reset b (regs m) evs
    /\ Forall (fun r => count_writes [r] evs = 1%nat) (mode_regs b)
    /\ Z.testbit (regs m' (reset_reg b)) 0 = false.
Proof.
  destruct m as [rf l]. cbn [regs log]. cbv zeta.
  destruct b, f5172, f5529; unfold_init; step; norm_log;
  match goal with
  | |- context [l ++ ?evs] => exists evs
  end;
  (split; [reflexivity|]);
  (split; [solve_under_reset|]);
  (split; [cbn [mode_regs];
           repeat (apply Forall_cons; [reflexivity|]); apply Forall_nil|]);
  cbn [reset_reg upd reg_eqb reg_tag Pos.eqb]; reflexivity.
Qed.

(** ** Loopback *)

Lemma backend_of_usci v : is_usci (backend_of v) = true.
Proof. destruct v; reflexivity. Qed.

Lemma usci_transfer_loopback_run (v : bitbang) fuel others inb m :
  let b := backend_of v in
  exists m',
    usci_transfer (txbuf b) (flag_reg b) (rx_flag b) (rxbuf b) (S fuel) inb
      (loopback v others) m
    = Returned (inb mod 256) m'.
Proof.
  cbv zeta.
  pose proof (usci_transfer_loopback v fuel others inb m) as H. cbv zeta in H.
  destruct (usci_transfer _ _ _ _ _ _ _ _) as [x m'|m']; [|discriminate H].
  injection H as ->. exists m'. reflexivity.
Qed.

(** X3.  On each of the six USCI backends, with data-out wired to data-in,
    [spi_transfer] returns the byte it was given, for all 256 bytes, as
    soon as one poll is allowed. *)
Theorem spi_transfer_loopback_echo (v : bitbang) fuel others inb m :
  0 <= inb < 256 ->
  value (spi_transfer_of (backend_of v) (S fuel) inb (loopback v others) m)
  = Some inb.
Proof.
  intros Hinb. rewrite (spi_transfer_usci _ (backend_of_usci v)).
  pose proof (usci_transfer_loopback v fuel others inb m) as H. cbv zeta in H.
  rewrite H. rewrite Z.mod_small by exact Hinb. reflexivity.
Qed.

Lemma spi_transfer_loopback_echo_witness :
  0 <= 0xA5 < 256
  /\ value (spi_transfer_of B_USCI_B_F5xxx 1 0xA5
              (loopback BB_USCI_B_F5529 0) reset_machine) = Some 0xA5.
Proof.
  split; [lia|].
  apply (spi_transfer_loopback_echo BB_USCI_B_F5529 0 0 0xA5 reset_machine).
  lia.
Defined.

Lemma word_recombine w :
  0 <= w < 65536 ->
  Z.shiftl (Z.shiftr w 8 mod 256) 8 .| ((w .& 255) mod 256) = w.
Proof.
  intros Hw.
  rewrite <- bytes_recombine by (apply Z.mod_pos_bound; reflexivity).
  rewrite !Z.mod_mod by lia. rewrite Z.shiftr_div_pow2 by lia.
  change (2 ^ 8) with 256. change 255 with (Z.ones 8).
  rewrite Z.land_ones by lia. change (2 ^ 8) with 256.
  rewrite Z.mod_mod by lia.
  rewrite (Z.mod_small (w / 256)).
  - rewrite Z.add_comm. symmetry. apply Z.div_mod. lia.
  - split; [apply Z.div_pos; lia|apply Z.div_lt_upper_bound; lia].
Qed.

(** X4.  On each of the six USCI backends, with data-out wired to data-in
    (and the little-endian memory of the MSP430), [spi_transfer16] returns
    the 16-bit word it was given: the two bytes it sends come back and are
    put together in the order in which they were taken apart. *)
Theorem spi_transfer16_loopback_echo (v : bitbang) fuel others w m :
  0 <= w < 65536 ->
  value (spi_transfer16_of (backend_of v) (S fuel) w (loopback v others) m)
  = Some w.
Proof.
  intros Hw.
  rewrite (spi_transfer16_usci _ (backend_of_usci v)).
  destruct (usci_regs_bytes _ (backend_of_usci v)) as [Htx Hrx].
  rewrite (usci_transfer16_two_bytes _ _ _ _ _ _ (loopback v others) _ Htx Hrx
             eq_refl).
  unfold bind at 1.
  destruct (usci_transfer_loopback_run v fuel others (Z.shiftr w 8) m)
    as [m1 E1]. cbv zeta in E1. rewrite E1.
  unfold bind at 1.
  destruct (usci_transfer_loopback_run v fuel others (w .& 255) m1)
    as [m2 E2]. cbv zeta in E2. rewrite E2.
  cbn [ret value]. f_equal. apply word_recombine. exact Hw.
Qed.

Lemma spi_transfer16_loopback_echo_witness :
  0 <= 0xBEEF < 65536
  /\ value (spi_transfer16_of B_USCI_A_G2xx4 1 0xBEEF
              (loopback BB_USCI_A_G2xx4 0) reset_machine) = Some 0xBEEF.
Proof.
  split; [lia|].
  apply (spi_transfer16_loopback_echo BB_USCI_A_G2xx4 0 0 0xBEEF reset_machine).
  lia.
Defined.

(** On the wired platform a USCI byte transfer returns the byte it sent, as
    soon as one poll is allowed. *)
Lemma usci_transfer_wired (v : bitbang) fuel others undriven inb m :
  let b := backend_of v in
  value (usci_transfer (txbuf b) (flag_reg b) (rx_flag b) (rxbuf b) (S fuel) inb
           (wired v others undriven) m)
  = Some (inb mod 256).
Proof.
  destruct m as [rf l]. destruct v; cbv zeta;
  cbv [backend_of txbuf flag_reg rx_flag rxbuf usci_transfer while bind rd wr
       ret is_input modulus hw_input wired sample_reg pins regs log];
  match goal with
  | |- context [negb (nonzero ?e)] => change (negb (nonzero e)) with false
  end;
  cbv [value upd reg_eqb reg_tag Pos.eqb];
  rewrite Z.mod_mod by lia; reflexivity.
Qed.

(** Line 464 leaves the direction bit of P3.4 as it was on entry. *)
Lemma line_464_keeps_bit4 x :
  Z.testbit (((x mod 256 .| .~ (BIT3 .| BIT4)) .| BIT3) mod 256) 4
  = Z.testbit x 4.
Proof.
  rewrite <- (testbit_byte x 4) by lia.
  generalize (Z.mod_pos_bound x 256 eq_refl). generalize (x mod 256).
  intros y Hy. apply eqb_prop. revert y Hy.
  apply (byte_check
           (fun y => Bool.eqb
                       (Z.testbit (((y .| .~ (BIT3 .| BIT4)) .| BIT3) mod 256) 4)
                       (Z.testbit y 4))).
  vm_compute. reflexivity.
Qed.

(* run [spi_transfer9] on the wired platform *)
Ltac run_wired inw E8 :=
  unfold_transfer9; step;
  destruct (nonzero (inw .& 256)) eqn:E8; step;
  cbn [hw_input wired pins sample_reg data_out data_in pin_out pin_index
       P1_G2xx3 P3_G2xx4 P1_F5xxx P2_F5xxx P3_F5xxx
       reg_eqb reg_tag Pos.eqb upd];
  rewrite value_bind_ret.

Ltac wired_transfer v fuel others undriven :=
  match goal with
  | |- context [usci_transfer ?tx ?ifg ?flag ?rx (S fuel) ?inb ?p ?m] =>
      let H := fresh in
      pose proof (usci_transfer_wired v fuel others undriven inb m) as H;
      cbv zeta in H; cbn [backend_of txbuf flag_reg rx_flag rxbuf] in H;
      rewrite H; clear H
  end;
  cbn [option_map].

(** X5.  With data-out wired to data-in, seven of the eight bit-banging
    [spi_transfer9] definitions (all but the one for USCI_B on the G2xx3)
    return every nine-bit value they are given, whatever the levels of the
    other pins of the port and whatever level the wire takes while the port
    does not drive data-out or drives data-in against it: when the port
    input register is read the port drives data-out at bit 8 of the
    argument and data-in is an input.  Six of them do so from every entry
    state; the USCI_A one for the F5529 only when it is entered with P3.4
    an input, as its line 464 leaves that direction bit as it finds it. *)
Theorem spi_transfer9_wired_echo (v : bitbang) fuel others undriven inw m :
  v <> BB_USCI_B_G2xx3 ->
  (v = BB_USCI_A_F5529 -> is_output (regs m) (data_in (pins v)) = false) ->
  0 <= inw <= 511 ->
  value (spi_transfer9_of v (S fuel) inw (wired v others undriven) m) = Some inw.
Proof.
  intros Hv Hdir Hinw. destruct m as [rf l].
  pose proof (nine_bits_recombine inw Hinw) as R.
  destruct v; try (exfalso; apply Hv; reflexivity);
  first [ specialize (Hdir eq_refl); unfold is_output in Hdir;
          pin_simpl_in Hdir; cbn [regs] in Hdir
        | clear Hdir ];
  run_wired inw E8;
  [ wired_transfer BB_USCI_A_G2xx3 fuel others undriven
  | wired_transfer BB_USCI_A_G2xx3 fuel others undriven
  | wired_transfer BB_USCI_A_G2xx4 fuel others undriven
  | wired_transfer BB_USCI_A_G2xx4 fuel others undriven
  | wired_transfer BB_USCI_B_G2xx4 fuel others undriven
  | wired_transfer BB_USCI_B_G2xx4 fuel others undriven
  | wired_transfer BB_USCI_A_F5172 fuel others undriven
  | wired_transfer BB_USCI_A_F5172 fuel others undriven
  | wired_transfer BB_USCI_A_F5529 fuel others undriven
  | wired_transfer BB_USCI_A_F5529 fuel others undriven
  | wired_transfer BB_USCI_B_F5172 fuel others undriven
  | wired_transfer BB_USCI_B_F5172 fuel others undriven
  | wired_transfer BB_USCI_B_F5529 fuel others undriven
  | wired_transfer BB_USCI_B_F5529 fuel others undriven ];
  unfold driven, gpio_output; pin_simpl;
  rewrite ?line_464_keeps_bit4;
  repeat match goal with
  | H : Z.testbit (rf _) _ = false |- _ => rewrite !H
  end;
  decide_bits; cbn [negb andb]; decide_sample;
  rewrite low_byte_mod; rewrite low_byte_mod in R;
  f_equal; exact R.
Qed.

Lemma spi_transfer9_wired_echo_witness :
  BB_USCI_A_F5529 <> BB_USCI_B_G2xx3
  /\ (BB_USCI_A_F5529 = BB_USCI_A_F5529 ->
      is_output (regs reset_machine) (data_in (pins BB_USCI_A_F5529)) = false)
  /\ 0 <= 0x155 <= 511
  /\ value (spi_transfer9_of BB_USCI_A_F5529 1 0x155
              (wired BB_USCI_A_F5529 0xFF false) reset_machine) = Some 0x155.
Proof.
  split; [discriminate|]. split; [intros _; reflexivity|]. split; [lia|].
  apply (spi_transfer9_wired_echo BB_USCI_A_F5529 0 0xFF false 0x155
           reset_machine);
    [discriminate|intros _; reflexivity|lia].
Defined.

(** ** [spi_transfer9]: what it leaves alone and what it reads of its argument *)

(** X6.  In seven of the eight bit-banging definitions (all but the USCI_A
    one for the F5529), every register write of the call keeps the bits
    that belong to pins other than the three SPI pins: at no point of the
    call does another pin change direction, level, pull resistor or
    function. *)
Theorem spi_transfer9_keeps_other_pins (v : bitbang) fuel inw p m :
  v <> BB_USCI_A_F5529 ->
  byte_registers (regs m) ->
  exists evs,
    log (final (spi_transfer9_of v fuel inw p m)) = log m ++ evs
    /\ Forall (keeps_other_pins v (regs m)) evs.
Proof. apply transfer9_keeps_other_pins. Qed.

Lemma spi_transfer9_keeps_other_pins_witness :
  BB_USCI_B_G2xx3 <> BB_USCI_A_F5529
  /\ byte_registers (regs reset_machine)
  /\ exists evs,
       log (final (spi_transfer9_of BB_USCI_B_G2xx3 1 0x1FF
                     (loopback BB_USCI_B_G2xx3 0) reset_machine))
       = log reset_machine ++ evs
       /\ Forall (keeps_other_pins BB_USCI_B_G2xx3 (regs reset_machine)) evs.
Proof.
  split; [discriminate|]. split; [exact reset_machine_bytes|].
  apply (spi_transfer9_keeps_other_pins BB_USCI_B_G2xx3 1 0x1FF
           (loopback BB_USCI_B_G2xx3 0) reset_machine);
    [discriminate|exact reset_machine_bytes].
Defined.

Lemma land_nine_bits_bit8 inw : (inw .& 0x1FF) .& 256 = inw .& 256.
Proof. rewrite <- Z.land_assoc. reflexivity. Qed.

Lemma land_nine_bits_low inw : (inw .& 0x1FF) .& 255 = inw .& 255.
Proof. rewrite <- Z.land_assoc. reflexivity. Qed.

(** X7.  The bit-banging [spi_transfer9] definitions read only the low nine
    bits of their argument: a call with [inw] and a call with [inw & 0x1FF]
    make the same register accesses and have the same outcome. *)
Theorem spi_transfer9_reads_nine_bits (v : bitbang) fuel inw p m :
  spi_transfer9_of v fuel (inw .& 0x1FF) p m = spi_transfer9_of v fuel inw p m.
Proof.
  destruct v; cbn [spi_transfer9_of];
  unfold USCI_A_G2xx3.spi_transfer9, USCI_B_G2xx3.spi_transfer9,
         USCI_A_G2xx4.spi_transfer9, USCI_B_G2xx4.spi_transfer9,
         USCI_A_F5xxx.MS430F5172.spi_transfer9,
         USCI_A_F5xxx.MS430F5529.spi_transfer9,
         USCI_B_F5xxx.MSP430F5172.spi_transfer9,
         USCI_B_F5xxx.MSP430F5529.spi_transfer9;
  rewrite land_nine_bits_bit8, land_nine_bits_low; reflexivity.
Qed.

(** ** The pins at the moment of the sample *)





(** ** The three transfers of the USI *)

(** Each USI transfer is: enable the interrupt and load the shift register
    and the bit counter, poll the counter, disable the interrupt and read
    the shift register. *)
Lemma usi_transfer_shape w fuel v p m :
  usi_transfer_of w fuel v p m
  = (usi_start w v ;; wait (poll B_USI) fuel ;; usi_finish w) p m.
Proof.
  destruct w; cbn [usi_transfer_of usi_start usi_finish usi_data_reg usi_count poll];
  [ unfold USI.spi_transfer | unfold USI.spi_transfer16 | unfold USI.spi_transfer9 ];
  step; unfold bind at 1; rewrite do_while_wait; reflexivity.
Qed.

Lemma total_usi_start w v : total (usi_start w v).
Proof.
  intros p m. destruct w; unfold usi_start, set_bits, bind, rd, wr;
  eexists; eexists; reflexivity.
Qed.

(** Polling the bit counter changes no register. *)
Lemma wait_usi_regs fuel p m :
  regs (final (wait (poll B_USI) fuel p m)) = regs m.
Proof.
  revert m. induction fuel as [|n IH]; intros m; [reflexivity|].
  cbn [wait poll]. unfold bind. cbn [lpm0 rd ret].
  destruct (negb _).
  - reflexivity.
  - rewrite IH. reflexivity.
Qed.

(** X9.  Each of the three USI transfers (8, 16 and 9 bits) leaves every
    register other than USICTL1, the shift register and the bit counter as
    it was on entry.  When the call returns, USICTL1 holds its entry value with the interrupt
    enable bit USIIE cleared; while the call is still polling it holds the
    entry value with USIIE set. *)
Theorem usi_transfer_interrupt_enable (w : usi_width) fuel v p m :
  byte_registers (regs m) ->
  let o := usi_transfer_of w fuel v p m in
  (forall r, mem_reg r usi_transfer_regs = false -> regs (final o) r = regs m r)
  /\ regs (final o) USICTL1
     = match value o with
       | Some _ => regs m USICTL1 .& .~ USIIE
       | None => regs m USICTL1 .| USIIE
       end.
Proof.
  intros Hb. cbv zeta. rewrite usi_transfer_shape.
  destruct m as [rf l]. cbn [regs] in Hb.
  unfold usi_start. step.
  match goal with
  | |- context [bind (wait ?c fuel) ?k p ?m1] =>
      change (bind (wait c fuel) k p m1)
        with (match wait c fuel p m1 with
              | Returned a m' => k a p m'
              | Spinning m' => Spinning m'
              end);
      pose proof (wait_usi_regs fuel p m1) as R;
      destruct (wait c fuel p m1) as [[] m2|m2]
  end; cbn [final regs] in R.
  - unfold usi_finish. step. rewrite R.
    split.
    + intros r Hr. destruct w; destruct r; try discriminate Hr; reflexivity.
    + cbn [upd reg_eqb reg_tag Pos.eqb].
      pose proof (Hb USICTL1) as H1. cbn [modulus] in H1.
      destruct w; cbn [usi_data_reg usi_count upd reg_eqb reg_tag Pos.eqb modulus];
      revert H1; generalize (rf USICTL1); clear; intros x Hx; byte_goal x Hx.
  - cbn [final value]. rewrite R. cbn [regs].
    split.
    + intros r Hr. destruct w; destruct r; try discriminate Hr; reflexivity.
    + pose proof (Hb USICTL1) as H1. cbn [modulus] in H1.
      destruct w; cbn [usi_data_reg usi_count upd reg_eqb reg_tag Pos.eqb modulus];
      revert H1; generalize (rf USICTL1); clear; intros x Hx; byte_goal x Hx.
Qed.

Lemma usi_transfer_interrupt_enable_witness :
  byte_registers (regs reset_machine) /\
  regs (final (usi_transfer_of USI9 3 0x1C3 idle_hardware reset_machine)) USICTL1
  = 0.
Proof.
  split; [exact reset_machine_bytes|].
  exact (proj2 (usi_transfer_interrupt_enable USI9 3 0x1C3 idle_hardware
                  reset_machine reset_machine_bytes)).
Defined.

(** X10.  Each of the three USI transfers returns within a bound of [fuel]
    wake-ups exactly when the bit counter reads zero in its low five bits at
    one of the first [fuel] polls after the start of the exchange; the
    value returned is then the closing read of the shift register (its low
    byte for the 8-bit transfer). *)
Theorem usi_transfer_returns_iff_drained (w : usi_width) fuel v p m :
  ((exists x, value (usi_transfer_of w fuel v p m) = Some x)
   <-> exists k, (k < fuel)%nat
                 /\ value ((usi_start w v ;; nth_poll (poll B_USI) k) p m) = Some true)
  /\ (forall x, value (usi_transfer_of w fuel v p m) = Some x ->
        exists l, log (final (usi_transfer_of w fuel v p m))
                  = l ++ [Rd (usi_data_reg w) x]).
Proof.
  destruct (total_usi_start w v p m) as [[] [m1 E]].
  assert (S1 : usi_transfer_of w fuel v p m
               = match wait (poll B_USI) fuel p m1 with
                 | Returned _ m2 => usi_finish w p m2
                 | Spinning m2 => Spinning m2
                 end)
    by (rewrite usi_transfer_shape; unfold bind; rewrite E; reflexivity).
  assert (S2 : forall k, (usi_start w v ;; nth_poll (poll B_USI) k) p m
                         = nth_poll (poll B_USI) k p m1)
    by (intros k; unfold bind at 1; rewrite E; reflexivity).
  rewrite S1. clear S1.
  split; [split|].
  - intros [x Hx].
    destruct (wait (poll B_USI) fuel p m1) as [[] m2|m2] eqn:W; [|discriminate Hx].
    destruct (wait_returned_succeeds _ (total_poll B_USI) _ _ _ _ W) as [k [Hk Hs]].
    exists k. split; [exact Hk|]. rewrite S2. exact Hs.
  - intros [k [Hk Hs]]. rewrite S2 in Hs.
    destruct (wait_returns _ (total_poll B_USI) k p m1 fuel Hs Hk) as [m2 W].
    rewrite W. unfold usi_finish, and_bits, bind, rd, wr. cbn [value].
    eexists. reflexivity.
  - intros x.
    destruct (wait (poll B_USI) fuel p m1) as [[] m2|m2]; [|discriminate].
    unfold usi_finish, and_bits, bind, rd, wr. cbn [value final log].
    intros Hx. injection Hx as <-. eexists. reflexivity.
Qed.

(** ** The registers the entry points write *)

Section Footprint.

Variable rs : list reg.

Lemma within_ret {A} (a : A) : writes_within rs (ret a).
Proof.
  intros p m. exists []. cbn. rewrite app_nil_r. repeat split.
Qed.

Lemma within_rd r : writes_within rs (rd r).
Proof.
  intros p m. eexists [_]. cbn [rd final regs log]. repeat split.
Qed.

Lemma within_lpm0 : writes_within rs lpm0.
Proof.
  intros p m. exists [Lpm0]. cbn [lpm0 final regs log]. repeat split.
Qed.

Lemma within_host_order : writes_within rs host_order.
Proof.
  intros p m. exists []. cbn. rewrite app_nil_r. repeat split.
Qed.

Lemma within_wr r v : mem_reg r rs = true -> writes_within rs (wr r v).
Proof.
  intros H p m. eexists [_]. cbn [wr final regs log].
  split; [reflexivity|]. split; [reflexivity|].
  cbn [forallb allowed_write]. rewrite H. reflexivity.
Qed.

Lemma within_bind {A B} (c : M A) (k : A -> M B) :
  writes_within rs c -> (forall a, writes_within rs (k a)) ->
  writes_within rs (bind c k).
Proof.
  intros Hc Hk p m. destruct (Hc p m) as [e1 [L1 [R1 F1]]].
  unfold bind. destruct (c p m) as [a m1|m1]; cbn [final] in *.
  - destruct (Hk a p m1) as [e2 [L2 [R2 F2]]].
    exists (e1 ++ e2). rewrite L2, R2, L1, R1. unfold replay.
    rewrite fold_left_app, forallb_app, F1, F2, app_assoc. repeat split.
  - exists e1. repeat split; assumption.
Qed.

Lemma within_when b c : writes_within rs c -> writes_within rs (when b c).
Proof. intros H. destruct b; [exact H|apply within_ret]. Qed.

Lemma within_while fuel cond body :
  writes_within rs cond -> writes_within rs body ->
  writes_within rs (while fuel cond body).
Proof.
  intros Hc Hb. induction fuel as [|n IH].
  - intros p m. exists []. cbn. rewrite app_nil_r. repeat split.
  - cbn [while]. apply within_bind; [exact Hc|].
    intros []; [|apply within_ret].
    apply within_bind; [exact Hb|]. intros _. exact IH.
Qed.

Lemma within_do_while fuel body cond :
  writes_within rs body -> writes_within rs cond ->
  writes_within rs (do_while fuel body cond).
Proof.
  intros Hb Hc. induction fuel as [|n IH].
  - intros p m. exists []. cbn. rewrite app_nil_r. repeat split.
  - cbn [do_while]. apply within_bind; [exact Hb|]. intros _.
    apply within_bind; [exact Hc|].
    intros []; [exact IH|apply within_ret].
Qed.

End Footprint.

(* the registers written by straight-line code, loops and branches *)
Ltac within_step :=
  cbv beta;
  lazymatch goal with
  | |- writes_within _ (bind _ _) => apply within_bind; [|intro]
  | |- writes_within _ (ret _) => apply within_ret
  | |- writes_within _ (rd _) => apply within_rd
  | |- writes_within _ lpm0 => apply within_lpm0
  | |- writes_within _ host_order => apply within_host_order
  | |- writes_within _ (wr _ _) => apply within_wr; reflexivity
  | |- writes_within _ (set_bits _ _) => unfold set_bits
  | |- writes_within _ (and_bits _ _) => unfold and_bits
  | |- writes_within _ (when _ _) => apply within_when
  | |- writes_within _ (while _ _ _) => apply within_while
  | |- writes_within _ (do_while _ _ _) => apply within_do_while
  | |- writes_within _ (if ?b then _ else _) => destruct b
  | |- writes_within _ (let _ := _ in _) => cbv zeta
  end.

Ltac within := repeat within_step.

(** X11.  A byte or 16-bit transfer writes only registers of its
    peripheral: the transmit buffer on the six USCI backends; USICTL1, the
    shift register and the bit counter on the USI, whose 9-bit transfer
    does the same.  The register file when the call returns, or while it
    is still polling, is the entry one after the logged writes. *)
Theorem transfers_write_only_peripheral (b : backend) fuel v :
  writes_within (transfer_regs b) (spi_transfer_of b fuel v)
  /\ writes_within (transfer_regs b) (spi_transfer16_of b fuel v)
  /\ writes_within (transfer_regs B_USI) (USI.spi_transfer9 fuel v).
Proof.
  split; [|split]; [destruct b|destruct b|];
  cbn [spi_transfer_of spi_transfer16_of transfer_regs txbuf];
  unfold USI.spi_transfer, USI.spi_transfer16, USI.spi_transfer9,
         USCI_A_G2xx3.spi_transfer, USCI_B_G2xx3.spi_transfer,
         USCI_A_G2xx4.spi_transfer, USCI_B_G2xx4.spi_transfer,
         USCI_A_F5xxx.spi_transfer, USCI_B_F5xxx.spi_transfer,
         USCI_A_G2xx3.spi_transfer16, USCI_B_G2xx3.spi_transfer16,
         USCI_A_G2xx4.spi_transfer16, USCI_B_G2xx4.spi_transfer16,
         USCI_A_F5xxx.spi_transfer16, USCI_B_F5xxx.spi_transfer16;
  within.
Qed.

(** X12.  Each bit-banging [spi_transfer9] writes only the transmit buffer
    of its peripheral and configuration registers of the ports of its three
    pins; each [spi_init] writes only the control registers of its
    peripheral and the function-select registers of its three pins (the USI
    one: only registers of the USI). *)
Theorem port_writes_stay_on_spi_ports (v : bitbang) fuel inw :
  writes_within (txbuf (backend_of v) :: port_regs v) (spi_transfer9_of v fuel inw)
  /\ writes_within (init_regs (backend_of v) ++ select_regs v)
       (spi_init_of (backend_of v) (device_F5172 v) (device_F5529 v))
  /\ writes_within (init_regs B_USI) USI.spi_init.
Proof.
  split; [|split]; [destruct v|destruct v|];
  cbn [spi_transfer9_of spi_init_of backend_of device_F5172 device_F5529];
  unfold USI.spi_init,
         USCI_A_G2xx3.spi_init, USCI_B_G2xx3.spi_init,
         USCI_A_G2xx4.spi_init, USCI_B_G2xx4.spi_init,
         USCI_A_F5xxx.spi_init, USCI_B_F5xxx.spi_init,
         USCI_A_G2xx3.spi_transfer9, USCI_B_G2xx3.spi_transfer9,
         USCI_A_G2xx4.spi_transfer9, USCI_B_G2xx4.spi_transfer9,
         USCI_A_F5xxx.MS430F5172.spi_transfer9,
         USCI_A_F5xxx.MS430F5529.spi_transfer9,
         USCI_B_F5xxx.MSP430F5172.spi_transfer9,
         USCI_B_F5xxx.MSP430F5529.spi_transfer9,
         USCI_A_G2xx3.spi_transfer, USCI_B_G2xx3.spi_transfer,
         USCI_A_G2xx4.spi_transfer, USCI_B_G2xx4.spi_transfer,
         USCI_A_F5xxx.spi_transfer, USCI_B_F5xxx.spi_transfer;
  try change (when true) with (fun c : M unit => c);
  try change (when false) with (fun _ : M unit => ret tt);
  within.
Qed.

(** ** Hardware that never completes *)

Lemma while_never_ready b p :
  is_usci b = true -> never_ready b p ->
  forall fuel m, exists polls,
    while fuel (f <- rd (flag_reg b) ;; ret (negb (nonzero (f .& rx_flag b))))
      (ret tt) p m
    = Spinning {| regs := regs m; log := log m ++ polls |}
    /\ forallb (reads_of [flag_reg b]) polls = true
    /\ length polls = fuel.
Proof.
  intros Hu Hn. induction fuel as [|n IH]; intros m.
  - exists []. rewrite app_nil_r. destruct m. repeat split.
  - cbn [while]. unfold bind at 1 2. cbn [rd ret].
    assert (Hi : is_input (flag_reg b) = true)
      by (destruct b; try discriminate Hu; reflexivity).
    assert (Hm : modulus (flag_reg b) = 256)
      by (destruct b; try discriminate Hu; reflexivity).
    rewrite Hi, Hm, Hn. cbn [nonzero Z.eqb negb]. unfold bind at 1. cbn [ret].
    match goal with
    | |- context [while n _ _ p ?m1] => destruct (IH m1) as [polls [E [F L]]]
    end.
    rewrite E. cbn [regs log]. rewrite <- app_assoc.
    eexists. split; [reflexivity|]. split.
    + cbn [app forallb reads_of mem_reg existsb]. rewrite reg_eqb_refl. exact F.
    + cbn [app length]. rewrite L. reflexivity.
Qed.

(** X13.  On hardware whose receive flag never reads set, the 16-bit
    transfer of a USCI backend never returns, whatever the bound on polls:
    it has written the first byte (the second storage byte of the argument)
    to the transmit buffer, reads the flag register at every poll, and never
    writes the other byte. *)
Theorem transfer16_stuck_after_first_byte (b : backend) fuel v p m :
  is_usci b = true -> never_ready b p ->
  exists polls,
    spi_transfer16_of b fuel v p m
    = Spinning {| regs := upd (txbuf b) (snd (bytes_of_u16 (byte_order p) v)) (regs m);
                  log := log m ++ Wr (txbuf b) (snd (bytes_of_u16 (byte_order p) v))
                               :: polls |}
    /\ forallb (reads_of [flag_reg b]) polls = true
    /\ length polls = fuel.
Proof.
  intros Hu Hn. rewrite (spi_transfer16_usci b Hu). unfold usci_transfer16.
  unfold bind at 1. cbn [host_order]. cbv zeta. unfold bind at 1. cbn [wr byte_at].
  destruct (usci_regs_bytes b Hu) as [Ht _]. rewrite Ht.
  assert (Hs : snd (bytes_of_u16 (byte_order p) v) mod 256
               = snd (bytes_of_u16 (byte_order p) v))
    by (destruct (byte_order p); cbn [bytes_of_u16 snd]; apply Z.mod_mod; lia).
  rewrite Hs. unfold bind at 1.
  match goal with
  | |- context [while fuel _ _ p ?m1] =>
      destruct (while_never_ready b p Hu Hn fuel m1) as [polls [E [F L]]]
  end.
  rewrite E. cbn [regs log]. rewrite <- app_assoc. exists polls.
  split; [reflexivity|]. split; [exact F|exact L].
Qed.

Lemma idle_never_ready b : never_ready b idle_hardware.
Proof. intros h rf. reflexivity. Defined.

Lemma transfer16_stuck_after_first_byte_witness :
  is_usci B_USCI_A_G2xx3 = true /\ never_ready B_USCI_A_G2xx3 idle_hardware /\
  exists polls,
    spi_transfer16_of B_USCI_A_G2xx3 4 0x1234 idle_hardware reset_machine
    = Spinning {| regs := upd UCA0TXBUF 0x12 (regs reset_machine);
                  log := Wr UCA0TXBUF 0x12 :: polls |}
    /\ forallb (reads_of [IFG2]) polls = true
    /\ length polls = 4%nat.
Proof.
  split; [reflexivity|]. split; [exact (idle_never_ready _)|].
  exact (transfer16_stuck_after_first_byte B_USCI_A_G2xx3 4 0x1234 idle_hardware
           reset_machine eq_refl (idle_never_ready _)).
Defined.

(** ** Which definitions a build compiles *)

(** X16.  For every assignment of the eleven macros that announces at most
    one device family and selects at most one driver and one F5xxx device,
    the translation unit defines no entry point twice; it defines
    [spi_init], [spi_transfer] and [spi_transfer16] together (each as often
    as the others), and [spi_transfer9] only where it defines them. *)
Theorem one_definition_per_entry_point (b : build) (s : symbol) :
  (families b <= 1)%nat -> one_selection b = true ->
  (definitions s b <= 1)%nat
  /\ definitions spi_transfer b = definitions spi_init b
  /\ definitions spi_transfer16 b = definitions spi_init b
  /\ (definitions spi_transfer9 b <= definitions spi_init b)%nat.
Proof.
  destruct b as [usi usci tb3 a0 b0 da db d1 d2 e1 e2].
  unfold families, one_selection.
  cbn [MSP430_HAS_USI MSP430_HAS_USCI MSP430_HAS_TB3 MSP430_HAS_USCI_A0
       MSP430_HAS_USCI_B0 SPI_DRIVER_USCI_A SPI_DRIVER_USCI_B
       MSP430F5172 MSP430F5529 MS430F5172 MS430F5529].
  destruct usi, usci, a0, b0; cbn [b2n orb Nat.add]; intros Hf; try lia; clear Hf;
  destruct da, db; cbn [andb negb]; intros Hs; try discriminate Hs;
  destruct d1, d2; try discriminate Hs;
  destruct e1, e2; try discriminate Hs; clear Hs;
  destruct tb3, s; lazy; repeat split; lia.
Qed.

Lemma one_definition_per_entry_point_witness :
  (families F5529_USCI_B <= 1)%nat /\ one_selection F5529_USCI_B = true /\
  (definitions spi_transfer9 F5529_USCI_B <= 1)%nat.
Proof.
  split; [vm_compute; lia|]. split; [reflexivity|].
  apply (one_definition_per_entry_point F5529_USCI_B spi_transfer9);
  [vm_compute; lia|reflexivity].
Defined.

(** X17.  Two ways in which the macros leave no usable translation unit.
    With neither driver macro defined on a device without USI nothing is
    defined, whatever the other macros.  With both driver macros defined on
    a device with a USCI (of either generation, both of its modules
    present) every one of the three common entry points is defined at
    least twice. *)
Theorem driver_macro_selects_block usi usci tb3 a0 b0 d1 d2 e1 e2 :
  translation_unit (Build false usci tb3 a0 b0 false false d1 d2 e1 e2) = []
  /\ Forall (fun s =>
        (2 <= definitions s (Build usi true tb3 a0 b0 true true d1 d2 e1 e2))%nat
        /\ (2 <= definitions s (Build usi usci tb3 true true true true d1 d2 e1 e2))%nat)
       [spi_init; spi_transfer; spi_transfer16].
Proof.
  split.
  - destruct usci, a0, b0; reflexivity.
  - repeat (apply Forall_cons; [split|]); try apply Forall_nil;
    destruct usi, usci, tb3, a0, b0, e1, e2, d1, d2; lazy; lia.
Qed.
